(** * Contesso: contest aggregation, status classification, bookmarks, theme

    A shallow embedding of the logic found in the page components of the
    Contesso contest tracker (React/TypeScript over a Supabase store), and
    the properties of that logic.

    Conventions of the embedding:
    - An instant (a JavaScript [Date], or the ISO string a [Date] round-trips
      through) is its number of milliseconds since the epoch, a [Z]. Where
      the source parses a date out of a payload, a parse failure is [None];
      where it formats an instant computed from a payload, the range of
      [Date] is checked, as [toISOString] throws outside it.
    - [async] functions are modelled by explicit state passing: the state of
      the Supabase tables and of the React component goes in, the new state
      and the toast that was shown come out.
    - The Supabase tables are external: [contests] and [bookmarks] are
      tables with primary key [id], each a [gmap] from the id to the row. *)

From Stdlib Require Import ZArith Lia.
From stdpp Require Import base strings list gmap pretty sorting.

Local Open Scope Z_scope.
Local Open Scope string_scope.

(** ** Status classification *)

Module Classifier.

(** [status: 'upcoming' | 'current' | 'past'] of the [Contest] interface. *)
Inductive Status := upcoming | current | past.

#[global] Instance Status_eq_dec : EqDecision Status.
Proof. solve_decision. Defined.

Definition status_label (s : Status) : string :=
  match s with
  | upcoming => "upcoming"
  | current => "current"
  | past => "past"
  end.

(** The expression used at every place a status is derived:
    [contestStart > now ? 'upcoming' : contestEnd > now ? 'current' : 'past']. *)
Definition classify (start_time end_time now : Z) : Status :=
  if start_time >? now then upcoming
  else if end_time >? now then current
  else past.

(** Position of a status in the life cycle upcoming, current, past. *)
Definition rank (s : Status) : nat :=
  match s with
  | upcoming => 0
  | current => 1
  | past => 2
  end.

End Classifier.

(** ** Theme hook *)

Module Theme.

(** Initial state of [useTheme]: the stored value when it is one of the two
    themes, ['light'] otherwise ([localStorage.getItem] gives [null] when
    nothing is stored). *)
Definition initTheme (savedTheme : option string) : string :=
  match savedTheme with
  | Some s => if (s =? "light") || (s =? "dark") then s else "light"
  | None => "light"
  end.

(** [setTheme((prev) => (prev === 'light' ? 'dark' : 'light'))]. *)
Definition toggleTheme (prev : string) : string :=
  if prev =? "light" then "dark" else "light".

(** The values the [theme] state can take: the initial one, and whatever
    [toggleTheme] makes of a value it can take. *)
Inductive theme_state : string -> Prop :=
  | theme_initial savedTheme : theme_state (initTheme savedTheme)
  | theme_toggled t : theme_state t -> theme_state (toggleTheme t).

Definition is_theme (t : string) : Prop := t = "light" \/ t = "dark".

(** What the effect of [useTheme] touches: the class list of the document
    root (a [DOMTokenList]: ordered, each token once) and the entry
    ['theme'] of [localStorage]. *)
Record Browser := {
  classList : list string;
  storedTheme : option string
}.

(** [classList.remove(...tokens)]. *)
Definition classList_remove (tokens : list string) (classes : list string)
    : list string :=
  filter (fun c => c ∉ tokens) classes.

(** [classList.add(token)]: a token that is there is not added again. *)
Definition classList_add (token : string) (classes : list string)
    : list string :=
  if bool_decide (token ∈ classes) then classes else (classes ++ [token])%list.

(** The effect that runs when [theme] changes. *)
Definition applyTheme (theme : string) (b : Browser) : Browser :=
  {| classList :=
       classList_add theme (classList_remove ["light"; "dark"] (classList b));
     storedTheme := Some theme |}.

End Theme.

(** ** Rows of the store ([lib/types.ts]) and upstream payloads *)

Inductive Platform := Codeforces | CodeChef | LeetCode.

#[global] Instance Platform_eq_dec : EqDecision Platform.
Proof. solve_decision. Defined.

Definition platform_label (p : Platform) : string :=
  match p with
  | Codeforces => "Codeforces"
  | CodeChef => "CodeChef"
  | LeetCode => "LeetCode"
  end.

Module Contest.
(** A row of [contests], with the [status] the page adds to the payload. *)
Record Row := {
  id : string;
  name : string;
  platform : Platform;
  start_time : Z;
  end_time : Z;
  duration : Z;
  url : string;
  solution_link : option string;
  status : Classifier.Status
}.

Definition with_status (s : Classifier.Status) (c : Row) : Row :=
  {| id := id c; name := name c; platform := platform c;
     start_time := start_time c; end_time := end_time c;
     duration := duration c; url := url c;
     solution_link := solution_link c; status := s |}.

(** [{ ...c, solution_link: link }]. *)
Definition with_solution_link (link : option string) (c : Row) : Row :=
  {| id := id c; name := name c; platform := platform c;
     start_time := start_time c; end_time := end_time c;
     duration := duration c; url := url c;
     solution_link := link; status := status c |}.
End Contest.

Module Bookmark.
Record Row := {
  id : string;
  user_id : string;
  contest_id : string
}.
End Bookmark.

(** An entry of [cfData.result] (Codeforces [contest.list]) whose two
    numbers are there, [Entry], and an entry as it arrives, [Raw]: the
    start and the duration may be absent. The answer itself may lack its
    [result]. *)
Module Cf.
Record Entry := {
  id : Z;
  name : string;
  startTimeSeconds : Z;
  durationSeconds : Z
}.
Record Raw := {
  raw_id : Z;
  raw_name : string;
  raw_startTimeSeconds : option Z;
  raw_durationSeconds : option Z
}.
Record Data := { status : string; result : option (list Raw) }.

(** An entry that arrives with both numbers. *)
Definition present (e : Entry) : Raw :=
  {| raw_id := id e; raw_name := name e;
     raw_startTimeSeconds := Some (startTimeSeconds e);
     raw_durationSeconds := Some (durationSeconds e) |}.
End Cf.

(** An entry of the CodeChef listing. The two dates arrive as strings and go
    through [new Date(...)]: the field is the instant the string denotes,
    [None] when it denotes none (an Invalid Date, on which [toISOString]
    throws). *)
Module Cc.
Record Entry := {
  contest_code : string;
  contest_name : string;
  contest_start_date : option Z;
  contest_end_date : option Z
}.
Record Data := {
  future_contests : list Entry;
  present_contests : list Entry;
  past_contests : list Entry
}.
End Cc.

(** An entry of the LeetCode listing; [duration] may be absent. [Entry]
    is an entry whose [startTime] is there, [Raw] an entry as it arrives. *)
Module Lc.
Record Entry := {
  titleSlug : string;
  title : string;
  startTime : Z;
  duration : option Z
}.
Record Raw := {
  raw_titleSlug : string;
  raw_title : string;
  raw_startTime : option Z;
  raw_duration : option Z
}.

(** An entry that arrives with its start. *)
Definition present (e : Entry) : Raw :=
  {| raw_titleSlug := titleSlug e; raw_title := title e;
     raw_startTime := Some (startTime e); raw_duration := duration e |}.
End Lc.

(** What awaiting a request gives: the parsed body, or a rejection (network
    error, body that is not JSON). *)
Inductive Response (A : Type) :=
  | Resolved (data : A)
  | Rejected.
Arguments Resolved {A} data.
Arguments Rejected {A}.

Inductive Toast :=
  | toast_success (message : string)
  | toast_error (message : string).

(** The two tables the pages talk to, each keyed by its primary key [id]. *)
Record Tables := {
  contests_table : gmap string Contest.Row;
  bookmarks_table : gmap string Bookmark.Row
}.

(** ** The store operations the pages request

    The store is the external Supabase service. The operations below are
    the ones the pages call, with the meaning the service documents for
    them. *)
Module Store.

(** [from('contests').upsert(rows, { onConflict: 'id' })]: a row whose [id]
    is new is inserted; a row whose [id] exists has every column that the
    payload carries replaced by the payload's value. The pages always send
    whole rows. *)
Definition upsert_contests (rows : list Contest.Row)
    (table : gmap string Contest.Row) : gmap string Contest.Row :=
  foldl (fun t r => <[Contest.id r := r]> t) table rows.

(** [from('bookmarks').upsert(row, { onConflict: 'id' })]. *)
Definition upsert_bookmark (row : Bookmark.Row)
    (table : gmap string Bookmark.Row) : gmap string Bookmark.Row :=
  <[Bookmark.id row := row]> table.

Definition bookmark_of (user contest : string) (r : Bookmark.Row) : Prop :=
  Bookmark.user_id r = user /\ Bookmark.contest_id r = contest.

#[global] Instance bookmark_of_dec user contest r :
  Decision (bookmark_of user contest r).
Proof. unfold bookmark_of. apply _. Defined.

(** [from('bookmarks').delete().eq('user_id', u).eq('contest_id', c)]. *)
Definition delete_bookmark (user contest : string)
    (table : gmap string Bookmark.Row) : gmap string Bookmark.Row :=
  filter (fun kr => ~ bookmark_of user contest kr.2) table.

(** [from('bookmarks').insert({ user_id, contest_id })]: the store fills in
    the key [generated]. The insert is refused ([None], the [error] of the
    response) when the key is taken, and also, when the table carries a
    uniqueness constraint on the pair ([unique_pair]), when the pair is
    already there. The schema of [bookmarks] is not part of the sources, so
    the constraint is a parameter. *)
Definition insert_bookmark (unique_pair : bool) (generated : string)
    (user contest : string) (table : gmap string Bookmark.Row)
    : option (gmap string Bookmark.Row) :=
  if bool_decide (is_Some (table !! generated)) then None
  else if unique_pair
          && bool_decide (map_Exists (fun _ r => bookmark_of user contest r) table)
  then None
  else Some (<[generated :=
                 {| Bookmark.id := generated; Bookmark.user_id := user;
                    Bookmark.contest_id := contest |}]> table).

(** Every row of [contests] sits under its own [id]: the table is keyed by
    its primary key. *)
Definition keyed_by_id (table : gmap string Contest.Row) : Prop :=
  map_Forall (fun k r => Contest.id r = k) table.

(** User [user] has a bookmark row for [contest]. *)
Definition has_bookmark (table : gmap string Bookmark.Row)
    (user contest : string) : Prop :=
  map_Exists (fun _ r => bookmark_of user contest r) table.

(** [from('contests').select('*')]: the rows, in the order of the store. *)
Definition select_contests (table : gmap string Contest.Row)
    : list Contest.Row :=
  (map_to_list table).*2.

(** [from('bookmarks').select('contest_id')], made into a [Set]. *)
Definition bookmarkSet (table : gmap string Bookmark.Row) : gset string :=
  list_to_set (Bookmark.contest_id <$> (map_to_list table).*2).

End Store.

(** ** The Contests page that fetches and syncs ([fetchAndSyncContests]) *)

Module Synced.

(** The callback of [cfData.result.map]. *)
Definition cfContest (now : Z) (contest : Cf.Entry) : Contest.Row :=
  {| Contest.id := "cf_" +:+ pretty (Cf.id contest);
     Contest.name := Cf.name contest;
     Contest.platform := Codeforces;
     Contest.start_time := Cf.startTimeSeconds contest * 1000;
     Contest.end_time :=
       (Cf.startTimeSeconds contest + Cf.durationSeconds contest) * 1000;
     Contest.duration := Cf.durationSeconds contest / 60;
     Contest.url := "https://codeforces.com/contest/" +:+ pretty (Cf.id contest);
     Contest.solution_link := None;
     Contest.status :=
       Classifier.classify
         (Cf.startTimeSeconds contest * 1000)
         ((Cf.startTimeSeconds contest + Cf.durationSeconds contest) * 1000)
         now |}.

(** The callback of the CodeChef [map]; [None] when [toISOString] throws. *)
Definition ccContest (now : Z) (contest : Cc.Entry) : option Contest.Row :=
  start ← Cc.contest_start_date contest;
  end_ ← Cc.contest_end_date contest;
  Some
    {| Contest.id := "cc_" +:+ Cc.contest_code contest;
       Contest.name := Cc.contest_name contest;
       Contest.platform := CodeChef;
       Contest.start_time := start;
       Contest.end_time := end_;
       Contest.duration := (end_ - start) / 60000;
       Contest.url := "https://www.codechef.com/" +:+ Cc.contest_code contest;
       Contest.solution_link := None;
       Contest.status := Classifier.classify start end_ now |}.

(** [contest.duration || 5400]: an absent or zero duration is falsy. *)
Definition lcDurationSeconds (contest : Lc.Entry) : Z :=
  match Lc.duration contest with
  | Some d => if (d =? 0)%Z then 5400 else d
  | None => 5400
  end.

(** The callback of the LeetCode [map]. *)
Definition lcContest (now : Z) (contest : Lc.Entry) : Contest.Row :=
  {| Contest.id := "lc_" +:+ Lc.titleSlug contest;
     Contest.name := Lc.title contest;
     Contest.platform := LeetCode;
     Contest.start_time := Lc.startTime contest * 1000;
     Contest.end_time := (Lc.startTime contest + lcDurationSeconds contest) * 1000;
     Contest.duration :=
       match Lc.duration contest with
       | Some d => if (d =? 0)%Z then 90 else d / 60
       | None => 90
       end;
     Contest.url := "https://leetcode.com/contest/" +:+ Lc.titleSlug contest;
     Contest.solution_link := None;
     Contest.status :=
       Classifier.classify
         (Lc.startTime contest * 1000)
         ((Lc.startTime contest + lcDurationSeconds contest) * 1000)
         now |}.

(** [toISOString] throws a [RangeError] unless the time value is a number
    within the range of [Date], 8.64e15 milliseconds either side of the
    epoch. *)
Definition valid_time (t : Z) : bool :=
  (-8640000000000000 <=? t)%Z && (t <=? 8640000000000000)%Z.

(** The callback of [cfData.result.map] on an entry as it arrives: [None]
    when it throws. An absent start or duration makes the time value [NaN],
    and [start_time], then [end_time], go through [toISOString]. *)
Definition cfCallback (now : Z) (raw : Cf.Raw) : option Contest.Row :=
  startTimeSeconds ← Cf.raw_startTimeSeconds raw;
  durationSeconds ← Cf.raw_durationSeconds raw;
  if valid_time (startTimeSeconds * 1000)
     && valid_time ((startTimeSeconds + durationSeconds) * 1000)
  then Some (cfContest now
               {| Cf.id := Cf.raw_id raw; Cf.name := Cf.raw_name raw;
                  Cf.startTimeSeconds := startTimeSeconds;
                  Cf.durationSeconds := durationSeconds |})
  else None.

(** Codeforces is fetched directly inside the outer [try]: a rejection, a
    status other than ['OK'] (the explicit [throw]), an answer without
    [result], or one entry on which the callback throws, leaves the [try]
    block ([None]). *)
Definition cfContests (now : Z) (cfData : Response Cf.Data)
    : option (list Contest.Row) :=
  match cfData with
  | Rejected => None
  | Resolved d =>
      if negb (Cf.status d =? "OK") then None
      else
        match Cf.result d with
        | Some entries => mapM (cfCallback now) entries
        | None => None
        end
  end.



(** CodeChef has a [try]/[catch] of its own: whatever goes wrong, the list
    stays at its initial value [[]]. *)
Definition ccContests (now : Z) (ccData : Response Cc.Data)
    : list Contest.Row :=
  match ccData with
  | Rejected => []
  | Resolved d =>
      default []
        (mapM (ccContest now)
           (Cc.future_contests d ++ Cc.present_contests d ++ Cc.past_contests d)%list)
  end.

(** The callback of the LeetCode [map] on an entry as it arrives: [None]
    when [toISOString] throws, on an absent start or an instant out of
    range. *)
Definition lcCallback (now : Z) (raw : Lc.Raw) : option Contest.Row :=
  startTime ← Lc.raw_startTime raw;
  let contest :=
    {| Lc.titleSlug := Lc.raw_titleSlug raw; Lc.title := Lc.raw_title raw;
       Lc.startTime := startTime; Lc.duration := Lc.raw_duration raw |} in
  if valid_time (startTime * 1000)
     && valid_time ((startTime + lcDurationSeconds contest) * 1000)
  then Some (lcContest now contest)
  else None.

(** LeetCode, likewise: a rejection (or a body that is no array), or one
    entry on which the callback throws, leaves the list at [[]]. *)
Definition lcContests (now : Z) (lcData : Response (list Lc.Raw))
    : list Contest.Row :=
  match lcData with
  | Rejected => []
  | Resolved d => default [] (mapM (lcCallback now) d)
  end.

(** An element of the [contests] state: the row, its status recomputed, and
    the bookmark flag. *)
Record View := {
  row : Contest.Row;
  isBookmarked : bool
}.

Record Page := {
  contests : list View;
  error : option string
}.

(** The callback that turns the selected rows into the displayed ones. *)
Definition contestsWithBookmarks (now : Z) (db : Tables) : list View :=
  (fun contest =>
     {| row :=
          Contest.with_status
            (Classifier.classify (Contest.start_time contest)
               (Contest.end_time contest) now)
            contest;
        isBookmarked :=
          bool_decide (Contest.id contest ∈ Store.bookmarkSet (bookmarks_table db)) |})
  <$> Store.select_contests (contests_table db).

Definition sync_failed_message : string :=
  "Failed to fetch or sync contests. Displaying cached data if available.".

(** [fetchAndSyncContests], given the clock and what the three requests
    give. The result is the store afterwards and the page state it sets.
    The store itself answers every request; the clock is read once. *)
Definition fetchAndSyncContests (now : Z)
    (cfData : Response Cf.Data) (ccData : Response Cc.Data)
    (lcData : Response (list Lc.Raw)) (db : Tables) : Tables * Page :=
  match cfContests now cfData with
  | Some cf =>
      let allContests :=
        (cf ++ ccContests now ccData ++ lcContests now lcData)%list in
      let db' :=
        {| contests_table := Store.upsert_contests allContests (contests_table db);
           bookmarks_table := bookmarks_table db |} in
      (db', {| contests := contestsWithBookmarks now db'; error := None |})
  | None =>
      (db, {| contests := contestsWithBookmarks now db;
              error := Some sync_failed_message |})
  end.

(** The batch a run sends to the store, when it gets that far. *)
Definition syncBatch (now : Z)
    (cfData : Response Cf.Data) (ccData : Response Cc.Data)
    (lcData : Response (list Lc.Raw)) : option (list Contest.Row) :=
  cf ← cfContests now cfData;
  Some (cf ++ ccContests now ccData ++ lcContests now lcData)%list.

(** [toggleBookmark]; [user] is what [supabase.auth.getUser()] gives. *)
Definition toggleBookmark (user : option string) (id : string)
    (page : Page) (db : Tables) : Tables * Page * Toast :=
  let userId := default "default_user" user in
  let updatedContests :=
    (fun c =>
       if Contest.id (row c) =? id
       then {| row := row c; isBookmarked := negb (isBookmarked c) |}
       else c) <$> contests page in
  let page' := {| contests := updatedContests; error := error page |} in
  let contest := find (fun c => Contest.id (row c) =? id) updatedContests in
  if from_option isBookmarked false contest then
    ({| contests_table := contests_table db;
        bookmarks_table :=
          Store.upsert_bookmark
            {| Bookmark.id := id +:+ "_" +:+ userId;
               Bookmark.user_id := userId;
               Bookmark.contest_id := id |}
            (bookmarks_table db) |},
     page', toast_success "Contest bookmarked!")
  else
    ({| contests_table := contests_table db;
        bookmarks_table := Store.delete_bookmark userId id (bookmarks_table db) |},
     page', toast_success "Bookmark removed!").

(** The page shows contest [id] with bookmark flag [b] (the first element
    with that id decides, as [find] does). *)
Definition shows (page : Page) (id : string) (b : bool) : Prop :=
  isBookmarked <$> find (fun c => Contest.id (row c) =? id) (contests page)
  = Some b.

(** [getTimeRemaining(startTime, endTime)], with the clock as an argument. *)
Definition getTimeRemaining (startTime endTime now : Z) : string :=
  if startTime >? now then
    let diffMs := startTime - now in
    let days := diffMs / (1000 * 60 * 60 * 24) in
    let hours := Z.rem diffMs (1000 * 60 * 60 * 24) / (1000 * 60 * 60) in
    let minutes := Z.rem diffMs (1000 * 60 * 60) / (1000 * 60) in
    if days >? 0
    then pretty days +:+ "d " +:+ pretty hours +:+ "h " +:+ pretty minutes +:+ "m"
    else pretty hours +:+ "h " +:+ pretty minutes +:+ "m"
  else if endTime >? now then "Ongoing" else "Ended".

(** The state [filterMode]. *)
Inductive FilterMode := show_upcoming | show_current | show_past | show_all.

(** The status a mode stands for, for [contest.status === filterMode]. *)
Definition mode_status (filterMode : FilterMode) : option Classifier.Status :=
  match filterMode with
  | show_upcoming => Some Classifier.upcoming
  | show_current => Some Classifier.current
  | show_past => Some Classifier.past
  | show_all => None
  end.

(** The predicate of the filter effect. *)
Definition passes_filter (selectedPlatforms : gset string)
    (filterMode : FilterMode) (contest : View) : Prop :=
  match mode_status filterMode with
  | None =>
      platform_label (Contest.platform (row contest)) ∈ selectedPlatforms
  | Some s =>
      platform_label (Contest.platform (row contest)) ∈ selectedPlatforms
      /\ Contest.status (row contest) = s
  end.

#[global] Instance passes_filter_dec selectedPlatforms filterMode contest :
  Decision (passes_filter selectedPlatforms filterMode contest).
Proof. unfold passes_filter. destruct (mode_status filterMode); apply _. Defined.

(** The effect that keeps [filteredContests] up to date. *)
Definition filteredContests (selectedPlatforms : gset string)
    (filterMode : FilterMode) (contests : list View) : list View :=
  filter (passes_filter selectedPlatforms filterMode) contests.

(** [togglePlatform], on the [Set] of selected platforms. *)
Definition togglePlatform (platform : string) (selectedPlatforms : gset string)
    : gset string :=
  if bool_decide (platform ∈ selectedPlatforms)
  then selectedPlatforms ∖ {[platform]}
  else selectedPlatforms ∪ {[platform]}.

(** [from('contests').update({ solution_link }).eq('id', id)]. *)
Definition update_solution_link (id link : string)
    (table : gmap string Contest.Row) : gmap string Contest.Row :=
  (fun r =>
     if Contest.id r =? id then Contest.with_solution_link (Some link) r else r)
  <$> table.

(** [handleAddSolution], with the two fields of the form as arguments; the
    store accepts the update. *)
Definition handleAddSolution (selectedContest solutionLink : string)
    (page : Page) (db : Tables) : Tables * Page * Toast :=
  if (selectedContest =? "") || (solutionLink =? "") then
    (db, page,
     toast_error "Please select a contest and provide a solution link")
  else
    ({| contests_table :=
          update_solution_link selectedContest solutionLink (contests_table db);
        bookmarks_table := bookmarks_table db |},
     {| contests :=
          (fun c =>
             if Contest.id (row c) =? selectedContest
             then {| row := Contest.with_solution_link (Some solutionLink) (row c);
                     isBookmarked := isBookmarked c |}
             else c) <$> contests page;
        error := error page |},
     toast_success "Solution link added successfully!").

End Synced.

(** ** What a normalised row looks like, whatever the platform *)

Definition id_prefix (p : Platform) : string :=
  match p with
  | Codeforces => "cf_"
  | CodeChef => "cc_"
  | LeetCode => "lc_"
  end.

Definition url_base (p : Platform) : string :=
  match p with
  | Codeforces => "https://codeforces.com/contest/"
  | CodeChef => "https://www.codechef.com/"
  | LeetCode => "https://leetcode.com/contest/"
  end.

(** What every row built by one of the three callbacks satisfies. *)
Definition consistent_row (now : Z) (r : Contest.Row) : Prop :=
  Contest.duration r = (Contest.end_time r - Contest.start_time r) / 60000 /\
  Contest.status r
  = Classifier.classify (Contest.start_time r) (Contest.end_time r) now /\
  exists native,
    Contest.id r = id_prefix (Contest.platform r) +:+ native /\
    Contest.url r = url_base (Contest.platform r) +:+ native.

(** ** The tabbed Contests page *)

Module Tabbed.

Record State := {
  userId : option string;
  bookmarkedIds : gset string
}.

(** [toggleBookmark]. [unique_pair] and [generated] are the store's: see
    [Store.insert_bookmark]. A user id is the UUID of the session, never the
    empty string, so [!userId] is the test for no user. *)
Definition toggleBookmark (unique_pair : bool) (generated : string)
    (contestId : string) (st : State) (db : Tables)
    : Tables * State * Toast :=
  match userId st with
  | None => (db, st, toast_error "Please sign in to bookmark contests")
  | Some user =>
      if bool_decide (contestId ∈ bookmarkedIds st) then
        ({| contests_table := contests_table db;
            bookmarks_table :=
              Store.delete_bookmark user contestId (bookmarks_table db) |},
         {| userId := userId st;
            bookmarkedIds := bookmarkedIds st ∖ {[contestId]} |},
         toast_success "Removed from bookmarks")
      else
        match Store.insert_bookmark unique_pair generated user contestId
                (bookmarks_table db) with
        | Some bookmarks' =>
            ({| contests_table := contests_table db;
                bookmarks_table := bookmarks' |},
             {| userId := userId st;
                bookmarkedIds := bookmarkedIds st ∪ {[contestId]} |},
             toast_success "Added to bookmarks")
        | None => (db, st, toast_error "Failed to update bookmark")
        end
  end.

(** [getTimeRemaining(startTime)] of the tabbed page, with the clock as an
    argument. *)
Definition getTimeRemaining (startTime now : Z) : string :=
  let diffMs := startTime - now in
  if (diffMs <=? 0)%Z then "Started"
  else
    let days := diffMs / (1000 * 60 * 60 * 24) in
    let hours := Z.rem diffMs (1000 * 60 * 60 * 24) / (1000 * 60 * 60) in
    let minutes := Z.rem diffMs (1000 * 60 * 60) / (1000 * 60) in
    pretty days +:+ "d " +:+ pretty hours +:+ "h " +:+ pretty minutes +:+ "m".

(** [order('start_time', { ascending: true })]. *)
Definition by_start_time (a b : Contest.Row) : Prop :=
  Contest.start_time a <= Contest.start_time b.

#[global] Instance by_start_time_dec a b : Decision (by_start_time a b).
Proof. unfold by_start_time. apply _. Defined.

(** [fetchData], the effect that runs once when the page mounts: the user
    of the session, the contests ordered by start, and the contests that
    user has bookmarked. [user] is what [supabase.auth.getUser()] gives;
    the store answers every request. *)
Definition fetchData (user : option string) (db : Tables)
    : State * list Contest.Row :=
  ({| userId := user;
      bookmarkedIds :=
        match user with
        | Some currentUserId =>
            list_to_set
              (Bookmark.contest_id
               <$> filter (fun b => Bookmark.user_id b = currentUserId)
                     (map_to_list (bookmarks_table db)).*2)
        | None => ∅
        end |},
   merge_sort by_start_time (Store.select_contests (contests_table db))).

(** [togglePlatform], on the array of selected platforms. *)
Definition togglePlatform (platform : string) (prev : list string)
    : list string :=
  if bool_decide (platform ∈ prev)
  then filter (fun p => p <> platform) prev
  else (prev ++ [platform])%list.

(** The local set of bookmarked ids says what the store says for the user
    of the page. *)
Definition in_sync (st : State) (db : Tables) : Prop :=
  forall user, userId st = Some user ->
    forall c, c ∈ bookmarkedIds st
              <-> Store.has_bookmark (bookmarks_table db) user c.

(** The state [activeTab]. *)
Inductive Tab := tab_upcoming | tab_past | tab_my.

(** The predicate of [filteredContests]. *)
Definition in_tab (now : Z) (selectedPlatforms : list string)
    (activeTab : Tab) (st : State) (contest : Contest.Row) : Prop :=
  platform_label (Contest.platform contest) ∈ selectedPlatforms /\
  match activeTab with
  | tab_upcoming => Contest.start_time contest > now
  | tab_past => Contest.end_time contest < now
  | tab_my => Contest.id contest ∈ bookmarkedIds st
  end.

#[global] Instance in_tab_dec now selectedPlatforms activeTab st contest :
  Decision (in_tab now selectedPlatforms activeTab st contest).
Proof. unfold in_tab. destruct activeTab; apply _. Defined.

Definition filteredContests (now : Z) (selectedPlatforms : list string)
    (activeTab : Tab) (st : State) (contests : list Contest.Row)
    : list Contest.Row :=
  filter (in_tab now selectedPlatforms activeTab st) contests.

End Tabbed.

(** ** The Contests page over mock data *)

Module Mock.

(** [getTimeRemaining(startTime)], with the clock as an argument. *)
Definition getTimeRemaining (startTime now : Z) : string :=
  let diffMs := startTime - now in
  if (diffMs <=? 0)%Z then "Ended"
  else
    let days := diffMs / (1000 * 60 * 60 * 24) in
    let hours := Z.rem diffMs (1000 * 60 * 60 * 24) / (1000 * 60 * 60) in
    let minutes := Z.rem diffMs (1000 * 60 * 60) / (1000 * 60) in
    pretty days +:+ "d " +:+ pretty hours +:+ "h " +:+ pretty minutes +:+ "m".

(** The [Contest] interface of this page. *)
Record MockContest := {
  id : string;
  title : string;
  platform : Platform;
  startTime : Z;
  duration : Z;
  isBookmarked : bool;
  solutionLink : option string
}.

Definition with_isBookmarked (b : bool) (c : MockContest) : MockContest :=
  {| id := id c; title := title c; platform := platform c;
     startTime := startTime c; duration := duration c;
     isBookmarked := b; solutionLink := solutionLink c |}.

Definition with_solutionLink (link : option string) (c : MockContest)
    : MockContest :=
  {| id := id c; title := title c; platform := platform c;
     startTime := startTime c; duration := duration c;
     isBookmarked := isBookmarked c; solutionLink := link |}.

(** The row this page writes to [bookmarks]. *)
Module Saved.
Record Row := {
  contest_id : string;
  title : string;
  platform : Platform;
  start_time : Z;
  duration : Z
}.
End Saved.

(** The tables of this page: [bookmarks], with [contest_id] as the conflict
    key, and [contest_solutions], from [contest_id] to [solution_link]. *)
Record Db := {
  bookmarks : gmap string Saved.Row;
  contest_solutions : gmap string string
}.

Definition mockContests : list MockContest :=
  [ {| id := "cf1"; title := "Codeforces Round 930"; platform := Codeforces;
       startTime := 1742479200000; duration := 120;
       isBookmarked := false; solutionLink := None |};
    {| id := "lc1"; title := "Weekly Contest 441"; platform := LeetCode;
       startTime := 1742092200000; duration := 90;
       isBookmarked := false; solutionLink := None |};
    {| id := "cc1"; title := "CodeChef Starters 120"; platform := CodeChef;
       startTime := 1742310000000; duration := 180;
       isBookmarked := false; solutionLink := None |};
    {| id := "cf2"; title := "Codeforces Round 929"; platform := Codeforces;
       startTime := 1741615200000; duration := 120;
       isBookmarked := false; solutionLink := None |} ].

(** [solutionMap.get(contest.id) || contest.solutionLink], for each contest:
    an empty stored link is falsy. *)
Definition contestsWithSolutions (solutionMap : gmap string string)
    (contests : list MockContest) : list MockContest :=
  (fun contest =>
     with_solutionLink
       (match solutionMap !! id contest with
        | Some link => if link =? "" then solutionLink contest else Some link
        | None => solutionLink contest
        end)
       contest) <$> contests.

(** [fetchContests]: what it sets [contests] to. *)
Definition fetchContests (db : Db) : list MockContest :=
  contestsWithSolutions (contest_solutions db) mockContests.

(** The predicate of the filter effect; [isPast] is [start < now]. *)
Definition passes_filter (now : Z) (selectedPlatforms : gset string)
    (showPast : bool) (contest : MockContest) : Prop :=
  platform_label (platform contest) ∈ selectedPlatforms /\
  if showPast then startTime contest < now else ~ startTime contest < now.

#[global] Instance passes_filter_dec now selectedPlatforms showPast contest :
  Decision (passes_filter now selectedPlatforms showPast contest).
Proof. unfold passes_filter. destruct showPast; apply _. Defined.

Definition filteredContests (now : Z) (selectedPlatforms : gset string)
    (showPast : bool) (contests : list MockContest) : list MockContest :=
  filter (passes_filter now selectedPlatforms showPast) contests.

Definition saved_row (c : MockContest) : Saved.Row :=
  {| Saved.contest_id := id c; Saved.title := title c;
     Saved.platform := platform c; Saved.start_time := startTime c;
     Saved.duration := duration c |}.

(** [from('bookmarks').upsert(rows, { onConflict: 'contest_id' })]. *)
Definition upsert_saved (rows : list Saved.Row)
    (table : gmap string Saved.Row) : gmap string Saved.Row :=
  foldl (fun t r => <[Saved.contest_id r := r]> t) table rows.

(** [from('bookmarks').delete().eq('contest_id', id)]. *)
Definition delete_saved (contestId : string) (table : gmap string Saved.Row)
    : gmap string Saved.Row :=
  filter (fun kr => Saved.contest_id kr.2 <> contestId) table.

(** [toggleBookmark]: the flag is flipped on the page, every contest now
    flagged is upserted, and the row is deleted when [contests], the state
    before the flip, holds the contest unflagged. *)
Definition toggleBookmark (contestId : string) (contests : list MockContest)
    (db : Db) : Db * list MockContest :=
  let updatedContests :=
    (fun c =>
       if id c =? contestId then with_isBookmarked (negb (isBookmarked c)) c
       else c) <$> contests in
  let bookmarkedContests :=
    filter (fun c => isBookmarked c = true) updatedContests in
  let upserted := upsert_saved (saved_row <$> bookmarkedContests) (bookmarks db) in
  let unbookmarked :=
    find (fun c => (id c =? contestId) && negb (isBookmarked c)) contests in
  ({| bookmarks :=
        match unbookmarked with
        | Some _ => delete_saved contestId upserted
        | None => upserted
        end;
      contest_solutions := contest_solutions db |},
   updatedContests).

(** [handleSolutionSubmit], with the two fields of the form as arguments;
    the last component is the text of the [alert], if any. The store
    accepts the upsert. *)
Definition handleSolutionSubmit (selectedContestForSolution solutionLink_ : string)
    (contests : list MockContest) (db : Db)
    : Db * list MockContest * option string :=
  if (selectedContestForSolution =? "") || (solutionLink_ =? "") then
    (db, contests, None)
  else
    ({| bookmarks := bookmarks db;
        contest_solutions :=
          <[selectedContestForSolution := solutionLink_]> (contest_solutions db) |},
     (fun c =>
        if id c =? selectedContestForSolution
        then with_solutionLink (Some solutionLink_) c else c) <$> contests,
     Some "Solution link added successfully!").

End Mock.

(** ** The Bookmarks page *)

Module BookmarksPage.

(** [getTimeStatus(startTime)], with the clock as an argument. *)
Definition getTimeStatus (startTime now : Z) : string :=
  let diffMs := startTime - now in
  if diffMs >? 0 then
    let days := diffMs / (1000 * 60 * 60 * 24) in
    let hours := Z.rem diffMs (1000 * 60 * 60 * 24) / (1000 * 60 * 60) in
    "Starts in " +:+ pretty days +:+ "d " +:+ pretty hours +:+ "h"
  else "Ended".

(** [removeBookmark]: nothing happens without a user; otherwise the rows
    of the pair are deleted. *)
Definition removeBookmark (userId : option string) (contestId : string)
    (db : Tables) : Tables * option Toast :=
  match userId with
  | None => (db, None)
  | Some user =>
      ({| contests_table := contests_table db;
          bookmarks_table :=
            Store.delete_bookmark user contestId (bookmarks_table db) |},
       Some (toast_success "Bookmark removed"))
  end.

(** [removeBookmark] together with the list the page shows
    ([bookmarkedContests]). *)
Definition removeBookmarkShown (userId : option string) (contestId : string)
    (bookmarkedContests : list Contest.Row) (db : Tables)
    : Tables * list Contest.Row * option Toast :=
  match userId with
  | None => (db, bookmarkedContests, None)
  | Some user =>
      ({| contests_table := contests_table db;
          bookmarks_table :=
            Store.delete_bookmark user contestId (bookmarks_table db) |},
       filter (fun c => Contest.id c <> contestId) bookmarkedContests,
       Some (toast_success "Bookmark removed"))
  end.

End BookmarksPage.

(** ** The other pages that show a countdown

    Each has a [getTimeRemaining(startTime)] of its own; the clock is an
    argument. *)

(** The Dashboard ([pages/Dashboard.tsx]). *)
Module Dashboard.
Definition getTimeRemaining (startTime now : Z) : string :=
  let diffMs := startTime - now in
  if (diffMs <=? 0)%Z then "Started"
  else
    let days := diffMs / (1000 * 60 * 60 * 24) in
    let hours := Z.rem diffMs (1000 * 60 * 60 * 24) / (1000 * 60 * 60) in
    let minutes := Z.rem diffMs (1000 * 60 * 60) / (1000 * 60) in
    pretty days +:+ "d " +:+ pretty hours +:+ "h " +:+ pretty minutes +:+ "m".
End Dashboard.

(** The Contests page that reads the Kontests API. *)
Module Kontests.
Definition getTimeRemaining (startTime now : Z) : string :=
  let diffMs := startTime - now in
  if (diffMs <=? 0)%Z then "Started"
  else
    let days := diffMs / (1000 * 60 * 60 * 24) in
    let hours := Z.rem diffMs (1000 * 60 * 60 * 24) / (1000 * 60 * 60) in
    let minutes := Z.rem diffMs (1000 * 60 * 60) / (1000 * 60) in
    pretty days +:+ "d " +:+ pretty hours +:+ "h " +:+ pretty minutes +:+ "m".
End Kontests.

(** The Calendar page ([pages/Calendar.tsx]). *)
Module Calendar.
Definition getTimeRemaining (startTime now : Z) : string :=
  let diffMs := startTime - now in
  if (diffMs <=? 0)%Z then "Ended"
  else
    let days := diffMs / (1000 * 60 * 60 * 24) in
    let hours := Z.rem diffMs (1000 * 60 * 60 * 24) / (1000 * 60 * 60) in
    let minutes := Z.rem diffMs (1000 * 60 * 60) / (1000 * 60) in
    if days >? 0
    then pretty days +:+ "d " +:+ pretty hours +:+ "h " +:+ pretty minutes +:+ "m"
    else pretty hours +:+ "h " +:+ pretty minutes +:+ "m".
End Calendar.

(** The Contests page over mock data that keeps its bookmarks in the page
    only. *)
Module MockLocal.
Definition getTimeRemaining (startTime now : Z) : string :=
  let diffMs := startTime - now in
  if (diffMs <=? 0)%Z then "Ended"
  else
    let days := diffMs / (1000 * 60 * 60 * 24) in
    let hours := Z.rem diffMs (1000 * 60 * 60 * 24) / (1000 * 60 * 60) in
    let minutes := Z.rem diffMs (1000 * 60 * 60) / (1000 * 60) in
    pretty days +:+ "d " +:+ pretty hours +:+ "h " +:+ pretty minutes +:+ "m".
End MockLocal.

(** The Bookmarks page that lists the rows of [bookmarks] as they are. *)
Module SavedBookmarks.
Definition getTimeRemaining (startTime now : Z) : string :=
  let diffMs := startTime - now in
  if (diffMs <=? 0)%Z then "Ended"
  else
    let days := diffMs / (1000 * 60 * 60 * 24) in
    let hours := Z.rem diffMs (1000 * 60 * 60 * 24) / (1000 * 60 * 60) in
    let minutes := Z.rem diffMs (1000 * 60 * 60) / (1000 * 60) in
    pretty days +:+ "d " +:+ pretty hours +:+ "h " +:+ pretty minutes +:+ "m".
End SavedBookmarks.

(** ** Time remaining, in the words of the specification

    [max(0, start_time - now)] split into whole days, whole hours of the
    rest and whole minutes of the rest, rounding down. *)

Module Remaining.

Definition remaining (start_time now : Z) : Z := Z.max 0 (start_time - now).

Definition whole_days (ms : Z) : Z := ms / 86400000.
Definition whole_hours (ms : Z) : Z := (ms mod 86400000) / 3600000.
Definition whole_minutes (ms : Z) : Z := (ms mod 3600000) / 60000.

End Remaining.

(** ** Sample data used by the examples *)

Module Samples.

Definition round_entry : Cf.Entry :=
  {| Cf.id := 1; Cf.name := "Codeforces Round 930";
     Cf.startTimeSeconds := 1742479200; Cf.durationSeconds := 7200 |}.

Definition cf_ok : Response Cf.Data :=
  Resolved {| Cf.status := "OK"; Cf.result := Some [Cf.present round_entry] |}.


Definition cf_failed : Response Cf.Data :=
  Resolved {| Cf.status := "FAILED"; Cf.result := Some [] |}.

Definition starters_entry : Cc.Entry :=
  {| Cc.contest_code := "START120"; Cc.contest_name := "CodeChef Starters 120";
     Cc.contest_start_date := Some 1742310000000;
     Cc.contest_end_date := Some 1742320800000 |}.

Definition cc_ok : Response Cc.Data :=
  Resolved {| Cc.future_contests := [starters_entry];
              Cc.present_contests := []; Cc.past_contests := [] |}.



(** The persisted row of [round_entry], with a curated solution link. *)
Definition persisted_round : Contest.Row :=
  {| Contest.id := "cf_1"; Contest.name := "Codeforces Round 930";
     Contest.platform := Codeforces;
     Contest.start_time := 1742479200000; Contest.end_time := 1742486400000;
     Contest.duration := 120; Contest.url := "https://codeforces.com/contest/1";
     Contest.solution_link := Some "https://video";
     Contest.status := Classifier.past |}.

Definition db_with_link : Tables :=
  {| contests_table := {[ "cf_1" := persisted_round ]};
     bookmarks_table := ∅ |}.


(** The syncing page showing the persisted round, not bookmarked. *)
Definition page_round : Synced.Page :=
  {| Synced.contests :=
       [ {| Synced.row := persisted_round; Synced.isBookmarked := false |} ];
     Synced.error := None |}.

Definition bookmark_u1_round : Bookmark.Row :=
  {| Bookmark.id := "k1"; Bookmark.user_id := "u1";
     Bookmark.contest_id := "cf_1" |}.

(** A store where user [u1] has bookmarked the round. *)
Definition db_bookmarked : Tables :=
  {| contests_table := {[ "cf_1" := persisted_round ]};
     bookmarks_table := {[ "k1" := bookmark_u1_round ]} |}.

(** The tabbed page of [u1], with and without the round in its local set. *)
Definition tabbed_fresh : Tabbed.State :=
  {| Tabbed.userId := Some "u1"; Tabbed.bookmarkedIds := ∅ |}.

Definition tabbed_signed_out : Tabbed.State :=
  {| Tabbed.userId := None; Tabbed.bookmarkedIds := ∅ |}.

(** A clock reading after all the sample contests. *)
Definition later : Z := 1750000000000.

End Samples.

(** * Properties *)

Section ClassifierFacts.
Import Classifier.

Lemma classify_upcoming_iff s e now : classify s e now = upcoming <-> now < s.
Proof.
  unfold classify.
  destruct (Z.gtb_spec s now); [ intuition lia | ].
  destruct (Z.gtb_spec e now); split; (discriminate || lia).
Qed.

Lemma classify_current_iff s e now :
  classify s e now = current <-> s <= now < e.
Proof.
  unfold classify.
  destruct (Z.gtb_spec s now); [ split; (discriminate || lia) | ].
  destruct (Z.gtb_spec e now); split; (discriminate || lia || auto).
Qed.

Lemma classify_past_iff s e now :
  classify s e now = past <-> s <= now /\ e <= now.
Proof.
  unfold classify.
  destruct (Z.gtb_spec s now); [ split; (discriminate || lia) | ].
  destruct (Z.gtb_spec e now); split; (discriminate || lia || auto).
Qed.

Lemma rank_classify_mono s e now1 now2 :
  now1 <= now2 -> (rank (classify s e now1) <= rank (classify s e now2))%nat.
Proof.
  intros Hle. unfold classify.
  destruct (Z.gtb_spec s now1), (Z.gtb_spec s now2),
           (Z.gtb_spec e now1), (Z.gtb_spec e now2); simpl; lia.
Qed.

(** C3. For a contest with [start_time <= end_time] and any instant [now],
    the classification is one of the three statuses, and it is [upcoming]
    exactly when [now < start_time], [current] (the ongoing status) exactly
    when [start_time <= now < end_time], and [past] exactly when
    [end_time <= now]; the boundary instants fall on the later status.
    This is the status every displayed row and every normalised Codeforces
    entry carries. *)
Theorem classify_exact (start_time end_time now : Z) :
  start_time <= end_time ->
  (classify start_time end_time now = upcoming <-> now < start_time) /\
  (classify start_time end_time now = current <-> start_time <= now < end_time) /\
  (classify start_time end_time now = past <-> end_time <= now) /\
  classify start_time end_time start_time <> upcoming /\
  classify start_time end_time end_time = past /\
  (forall db v,
     v ∈ Synced.contestsWithBookmarks now db ->
     Contest.status (Synced.row v)
     = classify (Contest.start_time (Synced.row v))
         (Contest.end_time (Synced.row v)) now) /\
  (forall c, Contest.status (Synced.cfContest now c)
             = classify (Contest.start_time (Synced.cfContest now c))
                 (Contest.end_time (Synced.cfContest now c)) now).
Proof.
  intros Hord.
  split; [ apply classify_upcoming_iff | ].
  split; [ apply classify_current_iff | ].
  split; [ rewrite classify_past_iff; lia | ].
  split; [ rewrite classify_upcoming_iff; lia | ].
  split; [ apply classify_past_iff; lia | ].
  split; [ | done ].
  intros db v Hv. unfold Synced.contestsWithBookmarks in Hv.
  apply list_elem_of_fmap in Hv as (c & -> & _). done.
Qed.

Lemma classify_exact_witness :
  classify 10 20 10 = current /\ classify 10 20 20 = past /\
  classify 10 20 9 = upcoming.
Proof.
  assert (Hord : 10 <= 20) by lia.
  split; [ | split ].
  - apply (classify_exact 10 20 10 Hord). lia.
  - apply (classify_exact 10 20 20 Hord).
  - apply (classify_exact 10 20 9 Hord). lia.
Defined.

(** C4. For a fixed contest with [start_time <= end_time] and instants
    [now1 <= now2], the status at [now2] is never earlier in the order
    upcoming, current, past than the status at [now1]. *)
Theorem classify_monotone (start_time end_time now1 now2 : Z) :
  start_time <= end_time ->
  now1 <= now2 ->
  (rank (classify start_time end_time now1)
   <= rank (classify start_time end_time now2))%nat /\
  (classify start_time end_time now1 = past ->
   classify start_time end_time now2 = past) /\
  (classify start_time end_time now1 = current ->
   classify start_time end_time now2 <> upcoming).
Proof.
  intros _ Hle. split; [ by apply rank_classify_mono | ].
  pose proof (rank_classify_mono start_time end_time now1 now2 Hle) as Hr.
  split; intros H1; rewrite H1 in Hr;
    destruct (classify start_time end_time now2); simpl in Hr; (done || lia).
Qed.

Lemma classify_monotone_witness :
  (rank (classify 10 20 15) <= rank (classify 10 20 25))%nat.
Proof.
  apply (classify_monotone 10 20 15 25); lia.
Defined.

End ClassifierFacts.

Section ThemeFacts.
Import Theme.

Lemma initTheme_is_theme savedTheme : is_theme (initTheme savedTheme).
Proof.
  unfold initTheme, is_theme. destruct savedTheme as [s|]; [ | by left ].
  destruct (String.eqb_spec s "light") as [->|_]; simpl; [ by left | ].
  destruct (String.eqb_spec s "dark") as [->|_]; [ by right | by left ].
Qed.

Lemma toggleTheme_is_theme t : is_theme (toggleTheme t).
Proof.
  unfold toggleTheme, is_theme. destruct (t =? "light"); [ by right | by left ].
Qed.

Lemma theme_state_is_theme t : theme_state t -> is_theme t.
Proof.
  induction 1; [ apply initTheme_is_theme | apply toggleTheme_is_theme ].
Qed.

(** C10. The theme held by [useTheme] is always ['light'] or ['dark']: a
    stored value that is neither initialises it to ['light'], and on every
    value the state can take, toggling twice gives the value back and
    toggling once gives the other theme. *)
Theorem useTheme_two_valued :
  (forall savedTheme,
      savedTheme <> Some "light" -> savedTheme <> Some "dark" ->
      initTheme savedTheme = "light") /\
  (forall t, theme_state t ->
      is_theme t /\
      toggleTheme (toggleTheme t) = t /\
      toggleTheme t <> t).
Proof.
  split.
  - intros [s|] Hl Hd; [ | done ]. unfold initTheme.
    destruct (String.eqb_spec s "light") as [->|_]; [ done | ].
    destruct (String.eqb_spec s "dark") as [->|_]; done.
  - intros t Ht. apply theme_state_is_theme in Ht as Hv.
    split; [ done | ]. destruct Hv as [-> | ->]; by vm_compute.
Qed.

Lemma useTheme_two_valued_witness :
  initTheme (Some "blue") = "light" /\
  toggleTheme (toggleTheme "dark") = "dark" /\
  toggleTheme "dark" <> "dark".
Proof.
  destruct useTheme_two_valued as [Hinit Hstep]. split.
  - apply (Hinit (Some "blue")); discriminate.
  - apply (Hstep "dark" (theme_initial (Some "dark"))).
Defined.

End ThemeFacts.

(** ** The store *)

Section StoreFacts.
Implicit Types (rows : list Contest.Row) (table : gmap string Contest.Row).

Lemma upsert_contests_snoc rows r table :
  Store.upsert_contests (rows ++ [r])%list table
  = <[Contest.id r := r]> (Store.upsert_contests rows table).
Proof. unfold Store.upsert_contests. by rewrite foldl_app. Qed.

(** After an upsert, the id of each row of the payload holds a row of the
    payload (the last one sent under that id). *)
Lemma upsert_contests_lookup_sent rows table r :
  r ∈ rows ->
  exists r', r' ∈ rows /\ Contest.id r' = Contest.id r /\
             Store.upsert_contests rows table !! Contest.id r = Some r'.
Proof.
  induction rows as [|x rows IH] using rev_ind; intros Hin.
  - by apply elem_of_nil in Hin.
  - rewrite upsert_contests_snoc.
    destruct (decide (Contest.id x = Contest.id r)) as [Heq|Hne].
    + exists x. rewrite <- Heq, lookup_insert_eq.
      split; [ apply elem_of_app; right; by apply list_elem_of_singleton | done ].
    + rewrite lookup_insert_ne by done.
      apply elem_of_app in Hin as [Hin|Hin].
      * destruct (IH Hin) as (r' & ? & ? & ?). exists r'.
        split; [ apply elem_of_app; by left | done ].
      * apply list_elem_of_singleton in Hin. by subst.
Qed.

(** An id that the payload does not mention keeps its row. *)
Lemma upsert_contests_lookup_other rows table k :
  (forall r, r ∈ rows -> Contest.id r <> k) ->
  Store.upsert_contests rows table !! k = table !! k.
Proof.
  induction rows as [|x rows IH] using rev_ind; intros Hk; [ done | ].
  rewrite upsert_contests_snoc, lookup_insert_ne
    by (apply Hk, elem_of_app; right; by apply list_elem_of_singleton).
  apply IH. intros r Hr. apply Hk, elem_of_app. by left.
Qed.

End StoreFacts.

(** ** Aggregation and reconciliation *)

Section SyncFacts.
Import Synced.

Lemma ccContests_elem now ccData r :
  r ∈ ccContests now ccData -> exists c, ccContest now c = Some r.
Proof.
  unfold ccContests. destruct ccData as [d|]; [ | by intros ?%elem_of_nil ].
  destruct (mapM _ _) as [l|] eqn:Hm; simpl; [ | by intros ?%elem_of_nil ].
  intros Hin. apply mapM_Some in Hm.
  apply list_elem_of_lookup in Hin as [i Hi].
  destruct (Forall2_lookup_r _ _ _ _ _ Hm Hi) as (c & _ & Hc). by exists c.
Qed.

Lemma mapM_elem {A B} (f : A -> option B) (l : list A) (k : list B) y :
  mapM f l = Some k -> y ∈ k -> exists x, x ∈ l /\ f x = Some y.
Proof.
  intros Hm Hin. apply mapM_Some in Hm.
  apply list_elem_of_lookup in Hin as [i Hi].
  destruct (Forall2_lookup_r _ _ _ _ _ Hm Hi) as (x & Hx & Hfx).
  exists x. split; [ | done ]. apply list_elem_of_lookup. by exists i.
Qed.

Lemma cfCallback_Some now raw r :
  cfCallback now raw = Some r -> exists c, r = cfContest now c.
Proof.
  unfold cfCallback. intros H.
  destruct (Cf.raw_startTimeSeconds raw), (Cf.raw_durationSeconds raw);
    simpl in H; try done.
  destruct (_ && _); [ | done ]. simplify_eq. by eexists.
Qed.

Lemma lcCallback_Some now raw r :
  lcCallback now raw = Some r -> exists c, r = lcContest now c.
Proof.
  unfold lcCallback. intros H.
  destruct (Lc.raw_startTime raw); simpl in H; [ | done ].
  destruct (_ && _); [ | done ]. simplify_eq. by eexists.
Qed.

Lemma cfContests_elem now cfData cf r :
  cfContests now cfData = Some cf -> r ∈ cf -> exists c, r = cfContest now c.
Proof.
  unfold cfContests. destruct cfData as [d|]; [ | done ].
  destruct (negb _); [ done | ].
  destruct (Cf.result d) as [entries|]; [ | done ].
  intros Hm Hin. destruct (mapM_elem _ _ _ _ Hm Hin) as (raw & _ & Hraw).
  by eapply cfCallback_Some.
Qed.

Lemma lcContests_elem now lcData r :
  r ∈ lcContests now lcData -> exists c, r = lcContest now c.
Proof.
  unfold lcContests. destruct lcData as [d|]; [ | by intros ?%elem_of_nil ].
  destruct (mapM _ _) as [l|] eqn:Hm; simpl; [ | by intros ?%elem_of_nil ].
  intros Hin. destruct (mapM_elem _ _ _ _ Hm Hin) as (raw & _ & Hraw).
  by eapply lcCallback_Some.
Qed.

Lemma ccContest_solution_link now c r :
  ccContest now c = Some r -> Contest.solution_link r = None.
Proof.
  unfold ccContest. intros H.
  destruct (Cc.contest_start_date c), (Cc.contest_end_date c);
    simpl in H; by simplify_eq.
Qed.

(** Every row of a batch carries [solution_link: null]. *)
Lemma syncBatch_solution_link now cfData ccData lcData batch r :
  syncBatch now cfData ccData lcData = Some batch ->
  r ∈ batch -> Contest.solution_link r = None.
Proof.
  unfold syncBatch. destruct (cfContests now cfData) as [cf|] eqn:Hcf;
    simpl; [ | done ].
  intros [= <-] Hin. rewrite !elem_of_app in Hin.
  destruct Hin as [Hin | [Hin | Hin]].
  - by destruct (cfContests_elem _ _ _ _ Hcf Hin) as [c ->].
  - apply ccContests_elem in Hin as [c Hc]. by eapply ccContest_solution_link.
  - by apply lcContests_elem in Hin as [c ->].
Qed.

Lemma fetchAndSyncContests_synced now cfData ccData lcData db batch :
  syncBatch now cfData ccData lcData = Some batch ->
  contests_table (fetchAndSyncContests now cfData ccData lcData db).1
  = Store.upsert_contests batch (contests_table db) /\
  error (fetchAndSyncContests now cfData ccData lcData db).2 = None.
Proof.
  unfold syncBatch, fetchAndSyncContests.
  destruct (cfContests now cfData) as [cf|]; simpl; [ | done ].
  by intros [= <-].
Qed.


(** C1. What the code does against the claim: whenever a run reaches the
    upsert, a persisted row whose id is in the batch comes out with
    [solution_link] null, whatever link it held before. The claim asks for
    the persisted link to survive; the batch rows all carry
    [solution_link: null] and the upsert writes that column like the
    others. *)
Theorem sync_resets_solution_link now cfData ccData lcData db batch r old link :
  syncBatch now cfData ccData lcData = Some batch ->
  r ∈ batch ->
  contests_table db !! Contest.id r = Some old ->
  Contest.solution_link old = Some link ->
  exists r',
    contests_table (fetchAndSyncContests now cfData ccData lcData db).1
      !! Contest.id r = Some r' /\
    Contest.solution_link r' = None.
Proof.
  intros Hbatch Hin _ _.
  destruct (fetchAndSyncContests_synced _ _ _ _ db _ Hbatch) as [-> _].
  destruct (upsert_contests_lookup_sent batch (contests_table db) r Hin)
    as (r' & Hr' & _ & Hlook).
  exists r'. split; [ done | ]. by eapply syncBatch_solution_link.
Qed.

Lemma sync_resets_solution_link_witness :
  exists r',
    contests_table
      (fetchAndSyncContests Samples.later Samples.cf_ok Rejected Rejected
         Samples.db_with_link).1
      !! Contest.id (cfContest Samples.later Samples.round_entry) = Some r' /\
    Contest.solution_link r' = None.
Proof.
  apply (sync_resets_solution_link Samples.later Samples.cf_ok Rejected Rejected
           Samples.db_with_link
           [cfContest Samples.later Samples.round_entry]
           (cfContest Samples.later Samples.round_entry)
           Samples.persisted_round "https://video").
  - reflexivity.
  - apply list_elem_of_here.
  - vm_compute. reflexivity.
  - reflexivity.
Defined.






End SyncFacts.

(** ** Normalisation of upstream entries *)

Section NormalizeFacts.
Import Synced.









End NormalizeFacts.

(** ** Time remaining *)

Section RemainingFacts.
Import Remaining.

Lemma whole_parts_bounds ms :
  0 <= ms ->
  0 <= whole_days ms /\
  0 <= whole_hours ms < 24 /\
  0 <= whole_minutes ms < 60 /\
  whole_days ms * 86400000 + whole_hours ms * 3600000
    + whole_minutes ms * 60000 <= ms
  < whole_days ms * 86400000 + whole_hours ms * 3600000
    + (whole_minutes ms + 1) * 60000.
Proof.
  intros Hms. unfold whole_days, whole_hours, whole_minutes.
  Z.div_mod_to_equations. lia.
Qed.

Lemma source_parts ms :
  0 < ms ->
  ms / (1000 * 60 * 60 * 24) = whole_days ms /\
  Z.rem ms (1000 * 60 * 60 * 24) / (1000 * 60 * 60) = whole_hours ms /\
  Z.rem ms (1000 * 60 * 60) / (1000 * 60) = whole_minutes ms.
Proof.
  intros Hms. unfold whole_days, whole_hours, whole_minutes.
  rewrite !Z.rem_mod_nonneg by lia. done.
Qed.

(** C9, as stated, fails. Ninety minutes before the start the call
    sites show three different texts: the Bookmarks page leaves the minutes
    out and the syncing Contests page leaves the days out. At the start
    instant itself none of them shows a zero duration: they show a label,
    and not the same one. *)
Lemma time_remaining_sites_disagree :
  Mock.getTimeRemaining 5400000 0 = "0d 1h 30m" /\
  BookmarksPage.getTimeStatus 5400000 0 = "Starts in 0d 1h" /\
  Synced.getTimeRemaining 5400000 9000000 0 = "1h 30m" /\
  remaining 1000 1000 = 0 /\
  Mock.getTimeRemaining 1000 1000 = "Ended" /\
  BookmarksPage.getTimeStatus 1000 1000 = "Ended" /\
  Synced.getTimeRemaining 1000 2000 1000 = "Ongoing" /\
  Tabbed.getTimeRemaining 1000 1000 = "Started".
Proof. repeat split; by vm_compute. Qed.

(** The three shapes the nine functions have before the start. *)
Lemma countdown_shapes ms :
  0 < ms ->
  (ms <=? 0)%Z = false /\ (ms >? 0)%Z = true /\
  ms / (1000 * 60 * 60 * 24) = whole_days ms /\
  Z.rem ms (1000 * 60 * 60 * 24) / (1000 * 60 * 60) = whole_hours ms /\
  Z.rem ms (1000 * 60 * 60) / (1000 * 60) = whole_minutes ms.
Proof.
  intros Hms. destruct (source_parts ms Hms) as (Ed & Eh & Em).
  split; [ by apply Z.leb_gt | ]. split; [ apply Z.gtb_lt; lia | done ].
Qed.

(** C9, amended. Before the start ([now < start_time]) each of the nine
    functions that show time remaining splits [start_time - now] the same
    way, rounding down: whole days, whole hours of the rest, whole minutes
    of the rest. Six show all three (the mock Contests page and its
    variant with local bookmarks, the Bookmarks page over saved rows, the
    tabbed Contests page, the Dashboard and the Kontests Contests page);
    the Bookmarks page over joined contests shows days and hours only; the
    syncing Contests page and the Calendar show the days only when there
    are any. From the start on ([start_time <= now]) no duration is shown
    but a label: ["Ended"] on five of them, ["Started"] on the tabbed
    Contests page, the Dashboard and the Kontests Contests page, and
    ["Ongoing"] or ["Ended"] according to the end instant on the syncing
    Contests page. *)
Theorem time_remaining_floor_parts (start_time end_time now : Z) :
  (now < start_time ->
     let ms := remaining start_time now in
     let d := whole_days ms in
     let h := whole_hours ms in
     let m := whole_minutes ms in
     let full :=
       pretty d +:+ "d " +:+ pretty h +:+ "h " +:+ pretty m +:+ "m" in
     let short := pretty h +:+ "h " +:+ pretty m +:+ "m" in
     ms = start_time - now /\
     0 <= d /\ 0 <= h < 24 /\ 0 <= m < 60 /\
     d * 86400000 + h * 3600000 + m * 60000 <= ms
       < d * 86400000 + h * 3600000 + (m + 1) * 60000 /\
     Mock.getTimeRemaining start_time now = full /\
     BookmarksPage.getTimeStatus start_time now
     = "Starts in " +:+ pretty d +:+ "d " +:+ pretty h +:+ "h" /\
     Synced.getTimeRemaining start_time end_time now
     = (if d >? 0 then full else short) /\
     Tabbed.getTimeRemaining start_time now = full /\
     Dashboard.getTimeRemaining start_time now = full /\
     Kontests.getTimeRemaining start_time now = full /\
     Calendar.getTimeRemaining start_time now
     = (if d >? 0 then full else short) /\
     MockLocal.getTimeRemaining start_time now = full /\
     SavedBookmarks.getTimeRemaining start_time now = full) /\
  (start_time <= now ->
     Mock.getTimeRemaining start_time now = "Ended" /\
     BookmarksPage.getTimeStatus start_time now = "Ended" /\
     Synced.getTimeRemaining start_time end_time now
     = (if end_time >? now then "Ongoing" else "Ended") /\
     Tabbed.getTimeRemaining start_time now = "Started" /\
     Dashboard.getTimeRemaining start_time now = "Started" /\
     Kontests.getTimeRemaining start_time now = "Started" /\
     Calendar.getTimeRemaining start_time now = "Ended" /\
     MockLocal.getTimeRemaining start_time now = "Ended" /\
     SavedBookmarks.getTimeRemaining start_time now = "Ended").
Proof.
  split.
  - intros Hlt ms d h m full short.
    assert (Hms : ms = start_time - now) by (unfold ms, remaining; lia).
    assert (Hpos : 0 < ms) by lia.
    destruct (whole_parts_bounds ms) as (Hd & Hh & Hm & Hsum); [ lia | ].
    destruct (countdown_shapes ms Hpos) as (Eleb & Egtb & Ed & Eh & Em).
    split; [ done | ]. do 4 (split; [ done | ]).
    unfold Mock.getTimeRemaining, BookmarksPage.getTimeStatus,
      Synced.getTimeRemaining, Tabbed.getTimeRemaining,
      Dashboard.getTimeRemaining, Kontests.getTimeRemaining,
      Calendar.getTimeRemaining, MockLocal.getTimeRemaining,
      SavedBookmarks.getTimeRemaining.
    cbv zeta. rewrite <- Hms, Eleb, Egtb, Ed, Eh, Em.
    destruct (Z.gtb_spec start_time now); [ | lia ].
    done.
  - intros Hle.
    unfold Mock.getTimeRemaining, BookmarksPage.getTimeStatus,
      Synced.getTimeRemaining, Tabbed.getTimeRemaining,
      Dashboard.getTimeRemaining, Kontests.getTimeRemaining,
      Calendar.getTimeRemaining, MockLocal.getTimeRemaining,
      SavedBookmarks.getTimeRemaining.
    cbv zeta.
    destruct (Z.leb_spec (start_time - now) 0); [ | lia ].
    destruct (Z.gtb_spec (start_time - now) 0); [ lia | ].
    destruct (Z.gtb_spec start_time now); [ lia | ].
    done.
Qed.

Lemma time_remaining_floor_parts_witness :
  Mock.getTimeRemaining 100000000 0
  = pretty (whole_days 100000000) +:+ "d "
    +:+ pretty (whole_hours 100000000) +:+ "h "
    +:+ pretty (whole_minutes 100000000) +:+ "m" /\
  Mock.getTimeRemaining 100000000 0 = "1d 3h 46m".
Proof.
  destruct (time_remaining_floor_parts 100000000 200000000 0) as [Hbefore _].
  assert (Hlt : 0 < 100000000) by lia.
  destruct (Hbefore Hlt) as (_ & _ & _ & _ & _ & Hmock & _).
  split; [ exact Hmock | reflexivity ].
Defined.

End RemainingFacts.

(** ** Bookmarks *)

Section BookmarkFacts.
Implicit Types (table : gmap string Bookmark.Row).

Lemma delete_bookmark_idem user contest table :
  Store.delete_bookmark user contest (Store.delete_bookmark user contest table)
  = Store.delete_bookmark user contest table.
Proof. unfold Store.delete_bookmark. by apply map_filter_filter_r. Qed.

Lemma delete_bookmark_absent user contest table :
  (forall k r, table !! k = Some r -> ~ Store.bookmark_of user contest r) ->
  Store.delete_bookmark user contest table = table.
Proof. intros Habs. unfold Store.delete_bookmark. by apply map_filter_id. Qed.

Lemma delete_bookmark_gone user contest table k r :
  Store.delete_bookmark user contest table !! k = Some r ->
  ~ Store.bookmark_of user contest r.
Proof.
  unfold Store.delete_bookmark. intros H.
  by apply map_lookup_filter_Some in H as [_ H].
Qed.

Lemma upsert_bookmark_idem row table :
  Store.upsert_bookmark row (Store.upsert_bookmark row table)
  = Store.upsert_bookmark row table.
Proof. unfold Store.upsert_bookmark. apply insert_insert_eq. Qed.

Lemma upsert_bookmark_present row table :
  table !! Bookmark.id row = Some row -> Store.upsert_bookmark row table = table.
Proof. unfold Store.upsert_bookmark. apply insert_id. Qed.

Lemma find_fmap_preserving {A} (p : A -> bool) (f : A -> A) (l : list A) :
  (forall x, p (f x) = p x) -> find p (f <$> l) = f <$> find p l.
Proof.
  intros Hp. induction l as [|x l IH]; [ done | ].
  simpl. rewrite Hp. by destruct (p x).
Qed.

(** Which branch [toggleBookmark] of the syncing page takes. *)
Lemma synced_toggle_branch user id page db b :
  Synced.shows page id b ->
  let userId := default "default_user" user in
  let r := Synced.toggleBookmark user id page db in
  contests_table r.1.1 = contests_table db /\
  if b then
    bookmarks_table r.1.1 = Store.delete_bookmark userId id (bookmarks_table db)
    /\ r.2 = toast_success "Bookmark removed!"
  else
    bookmarks_table r.1.1
    = Store.upsert_bookmark
        {| Bookmark.id := id +:+ "_" +:+ userId; Bookmark.user_id := userId;
           Bookmark.contest_id := id |} (bookmarks_table db)
    /\ r.2 = toast_success "Contest bookmarked!".
Proof.
  unfold Synced.shows, Synced.toggleBookmark. intros Hshow. cbv zeta.
  rewrite find_fmap_preserving.
  2:{ intros x. by destruct (Contest.id (Synced.row x) =? id) eqn:E. }
  destruct (find _ (Synced.contests page)) as [v|] eqn:Hfind; [ | done ].
  apply find_some in Hfind as [_ Hv]. simpl in Hshow. simplify_eq.
  simpl. rewrite Hv. simpl.
  by destruct (Synced.isBookmarked v).
Qed.

Lemma Tables_eq (a b : Tables) :
  contests_table a = contests_table b ->
  bookmarks_table a = bookmarks_table b -> a = b.
Proof. destruct a, b. simpl. by intros -> ->. Qed.

(** The tabbed page asks for a user before anything else. *)
Lemma tabbed_toggle_signed_out unique_pair generated contestId st db :
  Tabbed.userId st = None ->
  Tabbed.toggleBookmark unique_pair generated contestId st db
  = (db, st, toast_error "Please sign in to bookmark contests").
Proof. unfold Tabbed.toggleBookmark. by intros ->. Qed.

Lemma tabbed_toggle_remove unique_pair generated contestId st db user :
  Tabbed.userId st = Some user ->
  contestId ∈ Tabbed.bookmarkedIds st ->
  let r := Tabbed.toggleBookmark unique_pair generated contestId st db in
  contests_table r.1.1 = contests_table db /\
  bookmarks_table r.1.1
  = Store.delete_bookmark user contestId (bookmarks_table db) /\
  r.2 = toast_success "Removed from bookmarks".
Proof.
  unfold Tabbed.toggleBookmark. intros -> Hin.
  by rewrite bool_decide_eq_true_2.
Qed.

(** C5, as stated, fails on the tabbed page, whose add is a plain insert.
    With the bookmark of [u1] for [cf_1] in the store and a page that has
    not loaded it, asking again is refused with an error when the table
    forbids repeated pairs, and stores a second row for the pair when it
    does not. And on one page the mutator is a toggle: the second request
    for the same contest removes what the first one added. On the mock
    Contests page, removing a bookmark that the store does not hold changes
    the store: the other flagged contests are written to it. *)
Lemma tabbed_add_is_not_idempotent :
  (Tabbed.toggleBookmark true "k2" "cf_1"
     Samples.tabbed_fresh Samples.db_bookmarked).2
  = toast_error "Failed to update bookmark" /\
  (let after :=
     bookmarks_table
       (Tabbed.toggleBookmark false "k2" "cf_1"
          Samples.tabbed_fresh Samples.db_bookmarked).1.1 in
   after !! "k1" = Some Samples.bookmark_u1_round /\
   after !! "k2"
   = Some {| Bookmark.id := "k2"; Bookmark.user_id := "u1";
             Bookmark.contest_id := "cf_1" |} /\
   bookmarks_table Samples.db_bookmarked !! "k2" = None) /\
  (forall unique_pair,
     let r1 := Tabbed.toggleBookmark unique_pair "k1" "cf_1"
                 Samples.tabbed_fresh Samples.db_with_link in
     let r2 := Tabbed.toggleBookmark unique_pair "k2" "cf_1" r1.1.2 r1.1.1 in
     r1.2 = toast_success "Added to bookmarks" /\
     bookmarks_table r1.1.1 = {[ "k1" := Samples.bookmark_u1_round ]} /\
     r2.2 = toast_success "Removed from bookmarks" /\
     bookmarks_table r2.1.1 = ∅) /\
  (let page := Mock.with_isBookmarked true <$> take 2 Mock.mockContests in
   let store := {| Mock.bookmarks := ∅; Mock.contest_solutions := ∅ |} in
   Mock.bookmarks store !! "lc1" = None /\
   Mock.bookmarks (Mock.toggleBookmark "cf1" page store).1 !! "lc1" <> None).
Proof.
  split; [ by vm_compute | ].
  split; [ repeat split; by vm_compute | ].
  split; [ intros [|]; repeat split; by vm_compute | ].
  split; by vm_compute.
Qed.

(** C5, amended. The syncing and the tabbed Contests page have one
    mutator, [toggleBookmark], which adds when the page shows the contest
    as not bookmarked and removes when it shows it as bookmarked. On the
    syncing page both branches are idempotent on the store and report
    success: the add is an upsert keyed by the contest id and the user id,
    so asking twice leaves the store as after asking once, and asking for
    a bookmark whose row is there leaves the store unchanged; the remove
    deletes by user and contest, so removing twice is removing once, and
    removing an absent bookmark leaves the store unchanged. The remove of
    the tabbed page is idempotent in the same way, absent bookmark
    included, and reports success; removing twice with [removeBookmark]
    of the Bookmarks page is removing once. *)
Theorem bookmark_branches_idempotent user id page1 page2 db :
  (Synced.shows page1 id false -> Synced.shows page2 id false ->
     let r1 := Synced.toggleBookmark user id page1 db in
     let r2 := Synced.toggleBookmark user id page2 r1.1.1 in
     r1.2 = toast_success "Contest bookmarked!" /\
     r2.2 = toast_success "Contest bookmarked!" /\
     r2.1.1 = r1.1.1 /\
     (forall row,
        bookmarks_table db
          !! (id +:+ "_" +:+ default "default_user" user) = Some row ->
        row = {| Bookmark.id := id +:+ "_" +:+ default "default_user" user;
                 Bookmark.user_id := default "default_user" user;
                 Bookmark.contest_id := id |} ->
        r1.1.1 = db)) /\
  (Synced.shows page1 id true -> Synced.shows page2 id true ->
     let r1 := Synced.toggleBookmark user id page1 db in
     let r2 := Synced.toggleBookmark user id page2 r1.1.1 in
     r1.2 = toast_success "Bookmark removed!" /\
     r2.2 = toast_success "Bookmark removed!" /\
     r2.1.1 = r1.1.1 /\
     ((forall k r, bookmarks_table db !! k = Some r ->
                   ~ Store.bookmark_of (default "default_user" user) id r) ->
      r1.1.1 = db)) /\
  (forall unique_pair g1 g2 u st1 st2,
     Tabbed.userId st1 = Some u -> Tabbed.userId st2 = Some u ->
     id ∈ Tabbed.bookmarkedIds st1 -> id ∈ Tabbed.bookmarkedIds st2 ->
     let r1 := Tabbed.toggleBookmark unique_pair g1 id st1 db in
     let r2 := Tabbed.toggleBookmark unique_pair g2 id st2 r1.1.1 in
     r1.2 = toast_success "Removed from bookmarks" /\
     r2.2 = toast_success "Removed from bookmarks" /\
     r2.1.1 = r1.1.1 /\
     ((forall k r, bookmarks_table db !! k = Some r ->
                   ~ Store.bookmark_of u id r) ->
      r1.1.1 = db)) /\
  (forall u,
     let r1 := BookmarksPage.removeBookmark (Some u) id db in
     BookmarksPage.removeBookmark (Some u) id r1.1 = r1).
Proof.
  split; [ | split; [ | split ] ].
  - intros H1 H2 r1 r2.
    destruct (synced_toggle_branch user id page1 db false H1) as (Hc1 & Hb1 & Ht1).
    destruct (synced_toggle_branch user id page2 r1.1.1 false H2)
      as (Hc2 & Hb2 & Ht2).
    fold r1 in Hc1, Hb1, Ht1. fold r2 in Hc2, Hb2, Ht2.
    split; [ done | ]. split; [ done | ]. split.
    + apply Tables_eq; [ done | ].
      rewrite Hb2, Hb1. apply upsert_bookmark_idem.
    + intros row Hrow ->. apply Tables_eq; [ done | ].
      rewrite Hb1. by apply upsert_bookmark_present.
  - intros H1 H2 r1 r2.
    destruct (synced_toggle_branch user id page1 db true H1) as (Hc1 & Hb1 & Ht1).
    destruct (synced_toggle_branch user id page2 r1.1.1 true H2)
      as (Hc2 & Hb2 & Ht2).
    fold r1 in Hc1, Hb1, Ht1. fold r2 in Hc2, Hb2, Ht2.
    split; [ done | ]. split; [ done | ]. split.
    + apply Tables_eq; [ done | ].
      rewrite Hb2, Hb1. apply delete_bookmark_idem.
    + intros Habs. apply Tables_eq; [ done | ].
      rewrite Hb1. by apply delete_bookmark_absent.
  - intros unique_pair g1 g2 u st1 st2 Hu1 Hu2 Hin1 Hin2 r1 r2.
    destruct (tabbed_toggle_remove unique_pair g1 id st1 db u Hu1 Hin1)
      as (Hc1 & Hb1 & Ht1).
    destruct (tabbed_toggle_remove unique_pair g2 id st2 r1.1.1 u Hu2 Hin2)
      as (Hc2 & Hb2 & Ht2).
    fold r1 in Hc1, Hb1, Ht1. fold r2 in Hc2, Hb2, Ht2.
    split; [ done | ]. split; [ done | ]. split.
    + apply Tables_eq; [ congruence | ].
      rewrite Hb2, Hb1. apply delete_bookmark_idem.
    + intros Habs. apply Tables_eq; [ done | ].
      rewrite Hb1. by apply delete_bookmark_absent.
  - intros u. simpl. by rewrite delete_bookmark_idem.
Qed.

Lemma bookmark_branches_idempotent_witness :
  (Synced.toggleBookmark (Some "u1") "cf_1" Samples.page_round
     (Synced.toggleBookmark (Some "u1") "cf_1" Samples.page_round
        Samples.db_with_link).1.1).1.1
  = (Synced.toggleBookmark (Some "u1") "cf_1" Samples.page_round
       Samples.db_with_link).1.1.
Proof.
  destruct (bookmark_branches_idempotent (Some "u1") "cf_1"
              Samples.page_round Samples.page_round Samples.db_with_link)
    as [Hadd _].
  assert (Hshow : Synced.shows Samples.page_round "cf_1" false) by reflexivity.
  destruct (Hadd Hshow Hshow) as (_ & _ & Heq & _).
  exact Heq.
Defined.

(** C6. What the code does against the claim: on the syncing page, a
    toggle made with no user signed in, on a contest shown as not
    bookmarked, writes a bookmark row under the identity
    ["default_user"] and reports success. The claim asks for no write and
    a prompt to sign in, which is what the tabbed page does. *)
Theorem signed_out_toggle_writes_placeholder_row id page db :
  Synced.shows page id false ->
  let r := Synced.toggleBookmark None id page db in
  bookmarks_table r.1.1 !! (id +:+ "_default_user")
  = Some {| Bookmark.id := id +:+ "_default_user";
            Bookmark.user_id := "default_user";
            Bookmark.contest_id := id |} /\
  r.2 = toast_success "Contest bookmarked!".
Proof.
  intros Hshow r.
  destruct (synced_toggle_branch None id page db false Hshow) as (_ & Hb & Ht).
  fold r in Hb, Ht. split; [ | done ].
  rewrite Hb. unfold Store.upsert_bookmark. simpl. apply lookup_insert_eq.
Qed.

Lemma signed_out_toggle_writes_placeholder_row_witness :
  bookmarks_table
    (Synced.toggleBookmark None "cf_1" Samples.page_round
       Samples.db_with_link).1.1
  !! "cf_1_default_user"
  = Some {| Bookmark.id := "cf_1_default_user";
            Bookmark.user_id := "default_user";
            Bookmark.contest_id := "cf_1" |} /\
  (Synced.toggleBookmark None "cf_1" Samples.page_round
     Samples.db_with_link).2
  = toast_success "Contest bookmarked!".
Proof.
  apply (signed_out_toggle_writes_placeholder_row "cf_1" Samples.page_round
           Samples.db_with_link).
  reflexivity.
Defined.

End BookmarkFacts.

(** * Further properties of the pages *)

(** ** The syncing Contests page: the store across a run *)

Section SyncStoreFacts.
Import Synced.
Implicit Types (rows : list Contest.Row) (table : gmap string Contest.Row).

Lemma upsert_contests_lookup_cases rows table k :
  (exists r, r ∈ rows /\ Contest.id r = k /\
             Store.upsert_contests rows table !! k = Some r)
  \/ ((forall r, r ∈ rows -> Contest.id r <> k) /\
      Store.upsert_contests rows table !! k = table !! k).
Proof.
  destruct (decide (Exists (fun r => Contest.id r = k) rows)) as [Hex|Hnex].
  - left. apply Exists_exists in Hex as (r & Hin & <-).
    destruct (upsert_contests_lookup_sent rows table r Hin) as (r' & ? & ? & ?).
    by exists r'.
  - right.
    assert (Hall : forall r, r ∈ rows -> Contest.id r <> k).
    { intros r Hin Heq. apply Hnex, Exists_exists. by exists r. }
    split; [ done | by apply upsert_contests_lookup_other ].
Qed.

(** What sits under an id of the payload does not depend on the table. *)
Lemma upsert_contests_lookup_indep rows table table' r :
  r ∈ rows ->
  Store.upsert_contests rows table !! Contest.id r
  = Store.upsert_contests rows table' !! Contest.id r.
Proof.
  induction rows as [|x rows IH] using rev_ind; intros Hin.
  - by apply elem_of_nil in Hin.
  - rewrite !upsert_contests_snoc.
    destruct (decide (Contest.id x = Contest.id r)) as [Heq|Hne].
    + by rewrite <- Heq, !lookup_insert_eq.
    + rewrite !lookup_insert_ne by done.
      apply elem_of_app in Hin as [Hin|Hin]; [ by apply IH | ].
      apply list_elem_of_singleton in Hin. by subst.
Qed.

Lemma upsert_contests_idem rows table :
  Store.upsert_contests rows (Store.upsert_contests rows table)
  = Store.upsert_contests rows table.
Proof.
  apply map_eq. intros k.
  destruct (upsert_contests_lookup_cases rows table k)
    as [(r & Hin & <- & _) | (Hother & _)].
  - by apply upsert_contests_lookup_indep.
  - by apply upsert_contests_lookup_other.
Qed.

Lemma upsert_contests_keyed rows table :
  Store.keyed_by_id table -> Store.keyed_by_id (Store.upsert_contests rows table).
Proof.
  intros Hk k r Hlook.
  destruct (upsert_contests_lookup_cases rows table k)
    as [(r' & _ & Hid & Hr') | (_ & Heq)].
  - rewrite Hr' in Hlook. by simplify_eq.
  - rewrite Heq in Hlook. by apply Hk in Hlook.
Qed.

Lemma fetchAndSyncContests_table now cfData ccData lcData db :
  contests_table (fetchAndSyncContests now cfData ccData lcData db).1
  = match syncBatch now cfData ccData lcData with
    | Some batch => Store.upsert_contests batch (contests_table db)
    | None => contests_table db
    end.
Proof.
  unfold syncBatch, fetchAndSyncContests.
  by destruct (cfContests now cfData).
Qed.

(** X1. A run never removes a contest and never touches a contest that the
    upstream sources did not send: every persisted id is still there after
    the run, and a row whose id is not in the batch (or any row, when the
    run stops at the Codeforces failure) is exactly as it was. *)
Theorem sync_is_additive now cfData ccData lcData db k old :
  contests_table db !! k = Some old ->
  is_Some (contests_table (fetchAndSyncContests now cfData ccData lcData db).1
             !! k) /\
  ((forall batch r, syncBatch now cfData ccData lcData = Some batch ->
                    r ∈ batch -> Contest.id r <> k) ->
   contests_table (fetchAndSyncContests now cfData ccData lcData db).1 !! k
   = Some old).
Proof.
  intros Hold. rewrite fetchAndSyncContests_table.
  destruct (syncBatch now cfData ccData lcData) as [batch|]; [ | by eauto ].
  destruct (upsert_contests_lookup_cases batch (contests_table db) k)
    as [(r & Hin & Hid & Hr) | (Hother & Heq)].
  - split; [ by eauto | ]. intros Hno. by destruct (Hno batch r eq_refl Hin).
  - rewrite Heq. by eauto.
Qed.

Lemma sync_is_additive_witness :
  is_Some (contests_table
             (fetchAndSyncContests Samples.later Samples.cf_failed
                Samples.cc_ok Rejected Samples.db_with_link).1 !! "cf_1").
Proof.
  apply (sync_is_additive Samples.later Samples.cf_failed Samples.cc_ok
           Rejected Samples.db_with_link "cf_1" Samples.persisted_round).
  reflexivity.
Defined.

(** X2. A run is idempotent: running [fetchAndSyncContests] again with the
    same clock reading and the same three responses gives the same store
    and the same page as the first run. *)
Theorem sync_twice_is_sync_once now cfData ccData lcData db :
  fetchAndSyncContests now cfData ccData lcData
    (fetchAndSyncContests now cfData ccData lcData db).1
  = fetchAndSyncContests now cfData ccData lcData db.
Proof.
  unfold fetchAndSyncContests.
  destruct (cfContests now cfData) as [cf|]; simpl; [ | done ].
  by rewrite upsert_contests_idem.
Qed.

(** X3. When every persisted row sits under its own id, it still does after
    a run, and the page then never shows two contests with the same id. *)
Theorem sync_keeps_ids_unique now cfData ccData lcData db :
  Store.keyed_by_id (contests_table db) ->
  Store.keyed_by_id
    (contests_table (fetchAndSyncContests now cfData ccData lcData db).1) /\
  NoDup ((fun v => Contest.id (row v))
         <$> contests (fetchAndSyncContests now cfData ccData lcData db).2).
Proof.
  intros Hk.
  assert (Hk' : Store.keyed_by_id
            (contests_table (fetchAndSyncContests now cfData ccData lcData db).1)).
  { rewrite fetchAndSyncContests_table.
    destruct (syncBatch now cfData ccData lcData);
      [ by apply upsert_contests_keyed | done ]. }
  split; [ done | ].
  assert (Hpage : contests (fetchAndSyncContests now cfData ccData lcData db).2
                  = contestsWithBookmarks now
                      (fetchAndSyncContests now cfData ccData lcData db).1).
  { unfold fetchAndSyncContests. by destruct (cfContests now cfData). }
  rewrite Hpage. unfold contestsWithBookmarks, Store.select_contests.
  rewrite <- !list_fmap_compose.
  set (t := contests_table (fetchAndSyncContests now cfData ccData lcData db).1)
    in *.
  assert (Heq : ((fun v => Contest.id (row v))
                 ∘ (fun contest =>
                      {| row := Contest.with_status
                                  (Classifier.classify
                                     (Contest.start_time contest)
                                     (Contest.end_time contest) now) contest;
                         isBookmarked :=
                           bool_decide
                             (Contest.id contest
                              ∈ Store.bookmarkSet
                                  (bookmarks_table
                                     (fetchAndSyncContests now cfData ccData
                                        lcData db).1)) |})
                 ∘ snd) <$> map_to_list t
                = (map_to_list t).*1).
  { apply Forall_fmap_ext_1, Forall_forall. intros [k r] Hin.
    apply elem_of_map_to_list in Hin. simpl. by apply Hk' in Hin. }
  rewrite Heq. apply NoDup_fst_map_to_list.
Qed.

Lemma sync_keeps_ids_unique_witness :
  NoDup ((fun v => Contest.id (row v))
         <$> contests (fetchAndSyncContests Samples.later Samples.cf_ok
                         Samples.cc_ok Rejected Samples.db_with_link).2).
Proof.
  apply (sync_keeps_ids_unique Samples.later Samples.cf_ok Samples.cc_ok
           Rejected Samples.db_with_link).
  intros k r Hlook. unfold Samples.db_with_link in Hlook. simpl in Hlook.
  apply lookup_singleton_Some in Hlook as [<- <-].
  reflexivity.
Defined.

End SyncStoreFacts.

(** ** The syncing Contests page: what it shows *)

Section SyncPageFacts.
Import Synced.

Lemma bookmarkSet_elem table c :
  c ∈ Store.bookmarkSet table <->
  exists user, Store.has_bookmark table user c.
Proof.
  unfold Store.bookmarkSet, Store.has_bookmark.
  rewrite elem_of_list_to_set, list_elem_of_fmap. split.
  - intros (b & -> & Hb). apply list_elem_of_fmap in Hb as ([k b'] & -> & Hkb).
    apply elem_of_map_to_list in Hkb. exists (Bookmark.user_id b').
    apply map_Exists_lookup. by exists k, b'.
  - intros (user & Hex). apply map_Exists_lookup in Hex as (k & b & Hkb & _ & Hc).
    exists b. split; [ done | ]. apply list_elem_of_fmap. exists (k, b).
    split; [ done | by apply elem_of_map_to_list ].
Qed.

(** X4. The page shows every persisted contest exactly once, each with the
    columns of its row and only the status recomputed; and a contest is
    flagged as bookmarked as soon as some user has a bookmark row for it:
    the flag is not restricted to the user of the session. *)
Theorem displayed_contests_reflect_store now db :
  length (contestsWithBookmarks now db) = size (contests_table db) /\
  (forall k c, contests_table db !! k = Some c ->
     exists v, v ∈ contestsWithBookmarks now db /\
               row v = Contest.with_status
                         (Classifier.classify (Contest.start_time c)
                            (Contest.end_time c) now) c) /\
  (forall v, v ∈ contestsWithBookmarks now db ->
     (exists k c, contests_table db !! k = Some c /\
                  Contest.with_status (Contest.status c) (row v) = c) /\
     (isBookmarked v = true <->
      exists user,
        Store.has_bookmark (bookmarks_table db) user (Contest.id (row v)))).
Proof.
  unfold contestsWithBookmarks, Store.select_contests.
  split; [ by rewrite !length_fmap, length_map_to_list | ].
  split.
  - intros k c Hkc.
    exists {| row := Contest.with_status
                       (Classifier.classify (Contest.start_time c)
                          (Contest.end_time c) now) c;
              isBookmarked :=
                bool_decide
                  (Contest.id c ∈ Store.bookmarkSet (bookmarks_table db)) |}.
    split; [ | reflexivity ].
    apply list_elem_of_fmap. exists c. split; [ done | ].
    apply list_elem_of_fmap. exists (k, c).
    split; [ done | by apply elem_of_map_to_list ].
  - intros v Hv. apply list_elem_of_fmap in Hv as (c & -> & Hc).
    apply list_elem_of_fmap in Hc as ([k c'] & -> & Hkc).
    apply elem_of_map_to_list in Hkc. simpl. split.
    + exists k, c'. split; [ done | by destruct c' ].
    + rewrite bool_decide_eq_true. apply bookmarkSet_elem.
Qed.

Lemma displayed_contests_reflect_store_witness :
  exists v,
    v ∈ contestsWithBookmarks Samples.later Samples.db_bookmarked /\
    row v = Contest.with_status
              (Classifier.classify
                 (Contest.start_time Samples.persisted_round)
                 (Contest.end_time Samples.persisted_round) Samples.later)
              Samples.persisted_round.
Proof.
  destruct (displayed_contests_reflect_store Samples.later Samples.db_bookmarked)
    as (_ & Hrows & _).
  apply (Hrows "cf_1" Samples.persisted_round). reflexivity.
Defined.

Lemma passes_filter_all selected v :
  passes_filter selected show_all v <->
  passes_filter selected show_upcoming v \/
  passes_filter selected show_current v \/
  passes_filter selected show_past v.
Proof.
  unfold passes_filter. simpl.
  destruct (Contest.status (row v)); intuition congruence.
Qed.

Lemma passes_filter_exclusive selected m1 m2 v :
  m1 <> show_all -> m2 <> show_all ->
  passes_filter selected m1 v -> passes_filter selected m2 v -> m1 = m2.
Proof.
  unfold passes_filter.
  destruct m1, m2; simpl; try done; intros _ _ [_ H1] [_ H2]; congruence.
Qed.

(** X5. The filter "all" lists exactly the contests of the page whose
    platform is selected, and each of the filters upcoming, current and
    past lists exactly those of them that have that status. So the three
    status filters split what "all" shows: every contest of a selected
    platform is listed under exactly one of the three, the three lists
    together are as long as the list under "all", and a filter only ever
    selects among the contests of the page, in their order. *)
Theorem status_filters_partition selected contests :
  (forall v,
     v ∈ filteredContests selected show_all contests <->
     v ∈ filteredContests selected show_upcoming contests \/
     v ∈ filteredContests selected show_current contests \/
     v ∈ filteredContests selected show_past contests) /\
  (forall v m1 m2,
     m1 <> show_all -> m2 <> show_all ->
     v ∈ filteredContests selected m1 contests ->
     v ∈ filteredContests selected m2 contests -> m1 = m2) /\
  (length (filteredContests selected show_all contests)
   = length (filteredContests selected show_upcoming contests)
     + length (filteredContests selected show_current contests)
     + length (filteredContests selected show_past contests))%nat /\
  (forall m, filteredContests selected m contests `sublist_of` contests) /\
  (forall v,
     v ∈ filteredContests selected show_all contests <->
     v ∈ contests /\
     platform_label (Contest.platform (row v)) ∈ selected) /\
  (forall v m s, mode_status m = Some s ->
     (v ∈ filteredContests selected m contests <->
      v ∈ contests /\
      platform_label (Contest.platform (row v)) ∈ selected /\
      Contest.status (row v) = s)).
Proof.
  unfold filteredContests. split; [ | split; [ | split; [ | split; [ | split ] ] ] ].
  4:{ intros m. apply sublist_filter. }
  4:{ intros v. rewrite list_elem_of_filter. unfold passes_filter. simpl.
      tauto. }
  4:{ intros v m s Hm. rewrite list_elem_of_filter. unfold passes_filter.
      rewrite Hm. tauto. }
  - intros v. rewrite !list_elem_of_filter, passes_filter_all. tauto.
  - intros v m1 m2 H1 H2. rewrite !list_elem_of_filter.
    intros [? _] [? _]. by eapply passes_filter_exclusive.
  - induction contests as [|v l IH]; [ done | ].
    rewrite !filter_cons.
    destruct (decide (passes_filter selected show_all v)) as [Hall|Hall].
    + apply passes_filter_all in Hall as Hone.
      repeat case_decide; simpl; try lia;
        try (exfalso;
             match goal with
             | Ha : passes_filter _ ?m1 _, Hb : passes_filter _ ?m2 _ |- _ =>
                 assert (m1 = m2) by
                   (by apply (passes_filter_exclusive selected m1 m2 v));
                 discriminate
             end);
        tauto.
    + repeat case_decide; simpl; try lia;
        exfalso; apply Hall, passes_filter_all; tauto.
Qed.

Lemma status_filters_partition_witness :
  let v := {| row := Samples.persisted_round; isBookmarked := false |} in
  v ∈ filteredContests {["Codeforces"]} show_upcoming [v] \/
  v ∈ filteredContests {["Codeforces"]} show_current [v] \/
  v ∈ filteredContests {["Codeforces"]} show_past [v].
Proof.
  intros v.
  destruct (status_filters_partition {["Codeforces"]} [v]) as (Hall & _).
  apply Hall. unfold filteredContests. apply list_elem_of_filter.
  split; [ | apply list_elem_of_here ].
  unfold passes_filter. simpl. by apply elem_of_singleton.
Defined.

(** X6. [togglePlatform] flips the selection of the one platform and of no
    other, and applying it twice gives the selection back. *)
Theorem togglePlatform_flips_one platform (selected : gset string) :
  (platform ∈ togglePlatform platform selected <-> platform ∉ selected) /\
  (forall p, p <> platform ->
     (p ∈ togglePlatform platform selected <-> p ∈ selected)) /\
  togglePlatform platform (togglePlatform platform selected) = selected.
Proof.
  unfold togglePlatform.
  destruct (decide (platform ∈ selected)) as [Hin|Hout].
  - rewrite (bool_decide_eq_true_2 _ Hin).
    assert (Hgone : platform ∉ selected ∖ {[platform]}).
    { rewrite elem_of_difference, elem_of_singleton. tauto. }
    split; [ tauto | ]. split.
    + intros p Hp. rewrite elem_of_difference, elem_of_singleton. tauto.
    + rewrite (bool_decide_eq_false_2 _ Hgone).
      apply set_eq. intros p.
      rewrite elem_of_union, elem_of_difference, elem_of_singleton.
      destruct (decide (p = platform)) as [->|]; tauto.
  - rewrite (bool_decide_eq_false_2 _ Hout).
    assert (Hthere : platform ∈ selected ∪ {[platform]}).
    { rewrite elem_of_union, elem_of_singleton. tauto. }
    split; [ tauto | ]. split.
    + intros p Hp. rewrite elem_of_union, elem_of_singleton. tauto.
    + rewrite (bool_decide_eq_true_2 _ Hthere).
      apply set_eq. intros p.
      rewrite elem_of_difference, elem_of_union, elem_of_singleton.
      destruct (decide (p = platform)) as [->|]; tauto.
Qed.

Lemma togglePlatform_flips_one_witness :
  "CodeChef" ∈ togglePlatform "LeetCode" {["CodeChef"]}.
Proof.
  destruct (togglePlatform_flips_one "LeetCode" {["CodeChef"]})
    as (_ & Hothers & _).
  apply Hothers; [ discriminate | by apply elem_of_singleton ].
Defined.

Lemma update_solution_link_lookup id link table k :
  update_solution_link id link table !! k
  = (fun r => if Contest.id r =? id
              then Contest.with_solution_link (Some link) r else r)
    <$> table !! k.
Proof. unfold update_solution_link. apply lookup_fmap. Qed.

(** X7. [handleAddSolution] refuses an empty contest id or an empty link
    with an error toast and changes nothing. Otherwise it reports success
    and changes one column only: no row is added or removed, bookmarks and
    the rows of other contests are untouched, and the row of the chosen
    contest keeps everything but gets the link; if no row has the chosen
    id the store is left as it was. The list on the page gets the link on
    the entries with that id at once and keeps its other entries, and the
    rows of the store, turned into page entries as they are right after
    the call (before any further run of [fetchAndSyncContests]), carry the
    link for that id. *)
Theorem handleAddSolution_sets_one_link sel link page db now :
  (sel = "" \/ link = "" ->
     handleAddSolution sel link page db
     = (db, page,
        toast_error "Please select a contest and provide a solution link")) /\
  (sel <> "" -> link <> "" ->
     (handleAddSolution sel link page db).2
     = toast_success "Solution link added successfully!" /\
     bookmarks_table (handleAddSolution sel link page db).1.1
     = bookmarks_table db /\
     dom (contests_table (handleAddSolution sel link page db).1.1)
     = dom (contests_table db) /\
     (forall k c, contests_table db !! k = Some c ->
        contests_table (handleAddSolution sel link page db).1.1 !! k
        = Some (if decide (Contest.id c = sel)
                then Contest.with_solution_link (Some link) c else c)) /\
     ((forall k c, contests_table db !! k = Some c -> Contest.id c <> sel) ->
      (handleAddSolution sel link page db).1.1 = db) /\
     (forall i v, contests page !! i = Some v ->
        contests (handleAddSolution sel link page db).1.2 !! i
        = Some (if decide (Contest.id (row v) = sel)
                then {| row := Contest.with_solution_link (Some link) (row v);
                        isBookmarked := isBookmarked v |}
                else v)) /\
     (forall v,
        v ∈ contestsWithBookmarks now (handleAddSolution sel link page db).1.1 ->
        Contest.id (row v) = sel ->
        Contest.solution_link (row v) = Some link)).
Proof.
  unfold handleAddSolution. split.
  - intros [-> | ->]; [ done | ]. by rewrite orb_true_r.
  - intros Hsel Hlink.
    apply String.eqb_neq in Hsel, Hlink. rewrite Hsel, Hlink. simpl.
    split; [ done | ]. split; [ done | ].
    split; [ unfold update_solution_link; apply dom_fmap_L | ].
    assert (Hlook : forall k c, contests_table db !! k = Some c ->
              update_solution_link sel link (contests_table db) !! k
              = Some (if decide (Contest.id c = sel)
                      then Contest.with_solution_link (Some link) c else c)).
    { intros k c Hkc. rewrite update_solution_link_lookup, Hkc. simpl.
      destruct (String.eqb_spec (Contest.id c) sel), (decide (Contest.id c = sel));
        done. }
    split; [ done | ]. split.
    + intros Hnone. apply Tables_eq; [ simpl | done ].
      apply map_eq. intros k. rewrite update_solution_link_lookup.
      destruct (contests_table db !! k) as [c|] eqn:Hkc; [ | done ].
      simpl. apply Hnone in Hkc. apply String.eqb_neq in Hkc. by rewrite Hkc.
    + split.
      { intros i v Hiv. simpl. rewrite list_lookup_fmap, Hiv. simpl.
        destruct (String.eqb_spec (Contest.id (row v)) sel),
                 (decide (Contest.id (row v) = sel)); done. }
      intros v Hv Hid. unfold contestsWithBookmarks, Store.select_contests in Hv.
      apply list_elem_of_fmap in Hv as (c & -> & Hc).
      apply list_elem_of_fmap in Hc as ([k c'] & -> & Hkc).
      apply elem_of_map_to_list in Hkc. simpl in *.
      rewrite update_solution_link_lookup in Hkc.
      destruct (contests_table db !! k) as [c0|]; [ | done ].
      simpl in Hkc. injection Hkc as <-.
      destruct (String.eqb_spec (Contest.id c0) sel) as [_|Hne]; [ done | ].
      by destruct Hne.
Qed.

Lemma handleAddSolution_sets_one_link_witness :
  contests_table
    (handleAddSolution "cf_1" "https://video/2" Samples.page_round
       Samples.db_with_link).1.1 !! "cf_1"
  = Some (Contest.with_solution_link (Some "https://video/2")
            Samples.persisted_round).
Proof.
  destruct (handleAddSolution_sets_one_link "cf_1" "https://video/2"
              Samples.page_round Samples.db_with_link Samples.later)
    as [_ Hset].
  assert (H1 : "cf_1" <> "") by discriminate.
  assert (H2 : "https://video/2" <> "") by discriminate.
  destruct (Hset H1 H2) as (_ & _ & _ & Hlook & _).
  exact (Hlook "cf_1" Samples.persisted_round eq_refl).
Defined.

(** The page after [toggleBookmark]: the flag is flipped on the contests
    with that id. *)
Lemma synced_toggle_page user id page db :
  (toggleBookmark user id page db).1.2
  = {| contests :=
         (fun c =>
            if Contest.id (row c) =? id
            then {| row := row c; isBookmarked := negb (isBookmarked c) |}
            else c) <$> contests page;
       error := error page |}.
Proof. unfold toggleBookmark. cbv zeta. by destruct (from_option _ _ _). Qed.

Lemma synced_toggle_shows user id page db b :
  shows page id b -> shows (toggleBookmark user id page db).1.2 id (negb b).
Proof.
  rewrite synced_toggle_page. unfold shows. simpl. intros Hshow.
  rewrite find_fmap_preserving.
  2:{ intros x. by destruct (Contest.id (row x) =? id) eqn:E. }
  destruct (find _ (contests page)) as [v|] eqn:Hfind; [ | done ].
  apply find_some in Hfind as [_ Hv]. simpl in *. rewrite Hv. simpl.
  by simplify_eq.
Qed.

Lemma find_all_false {A} (p : A -> bool) (l : list A) :
  (forall x, x ∈ l -> p x = false) -> find p l = None.
Proof.
  induction l as [|x l IH]; intros Hall; [ done | ].
  simpl. rewrite (Hall x) by apply list_elem_of_here.
  apply IH. intros y Hy. apply Hall. by apply list_elem_of_further.
Qed.

(** X8. On one page [toggleBookmark] undoes itself: for a contest shown as
    not bookmarked, the first call stores the bookmark and reports
    "Contest bookmarked!", the second reports "Bookmark removed!", and
    after the two calls the page shows what it showed before and the
    store holds no bookmark of that user for that contest. *)
Theorem synced_toggle_twice_restores user id page db :
  shows page id false ->
  let userId := default "default_user" user in
  let r1 := toggleBookmark user id page db in
  let r2 := toggleBookmark user id r1.1.2 r1.1.1 in
  r1.2 = toast_success "Contest bookmarked!" /\
  Store.has_bookmark (bookmarks_table r1.1.1) userId id /\
  r2.2 = toast_success "Bookmark removed!" /\
  contests r2.1.2 = contests page /\
  ~ Store.has_bookmark (bookmarks_table r2.1.1) userId id /\
  contests_table r2.1.1 = contests_table db.
Proof.
  intros Hshow userId r1 r2.
  destruct (synced_toggle_branch user id page db false Hshow) as (Hc1 & Hb1 & Ht1).
  pose proof (synced_toggle_shows user id page db false Hshow) as Hshow1.
  fold r1 in Hc1, Hb1, Ht1, Hshow1. simpl in Hshow1.
  destruct (synced_toggle_branch user id r1.1.2 r1.1.1 true Hshow1)
    as (Hc2 & Hb2 & Ht2).
  fold r2 userId in Hc2, Hb2, Ht2. fold userId in Hb1.
  split; [ done | ]. split.
  { rewrite Hb1. apply map_Exists_lookup.
    eexists _, _. split; [ apply lookup_insert_eq | done ]. }
  split; [ done | ]. split.
  { unfold r2. rewrite synced_toggle_page. unfold r1.
    rewrite synced_toggle_page. simpl. rewrite <- list_fmap_compose.
    rewrite <- (list_fmap_id (contests page)) at 2.
    apply list_fmap_ext. intros _ [c b] _. simpl.
    destruct (Contest.id c =? id) eqn:E; simpl; rewrite E; [ | done ].
    by rewrite negb_involutive. }
  split; [ | congruence ].
  rewrite Hb2. intros Hex. apply map_Exists_lookup in Hex as (k & r & Hk & Hr).
  by apply delete_bookmark_gone in Hk.
Qed.

Lemma synced_toggle_twice_restores_witness :
  contests
    (toggleBookmark (Some "u1") "cf_1"
       (toggleBookmark (Some "u1") "cf_1" Samples.page_round
          Samples.db_with_link).1.2
       (toggleBookmark (Some "u1") "cf_1" Samples.page_round
          Samples.db_with_link).1.1).1.2
  = contests Samples.page_round.
Proof.
  assert (Hshow : shows Samples.page_round "cf_1" false) by reflexivity.
  destruct (synced_toggle_twice_restores (Some "u1") "cf_1" Samples.page_round
              Samples.db_with_link Hshow) as (_ & _ & _ & Hpage & _).
  exact Hpage.
Defined.

(** X9. [toggleBookmark] on an id that the page does not show takes the
    remove branch: the page is unchanged, the bookmark rows of the user
    for that id are deleted, and "Bookmark removed!" is reported. *)
Theorem synced_toggle_unknown_id_removes user id page db :
  (forall v, v ∈ contests page -> Contest.id (row v) <> id) ->
  toggleBookmark user id page db
  = ({| contests_table := contests_table db;
        bookmarks_table :=
          Store.delete_bookmark (default "default_user" user) id
            (bookmarks_table db) |},
     page, toast_success "Bookmark removed!").
Proof.
  intros Hnone. unfold toggleBookmark. cbv zeta.
  assert (Hsame : (fun c =>
                     if Contest.id (row c) =? id
                     then {| row := row c; isBookmarked := negb (isBookmarked c) |}
                     else c) <$> contests page = contests page).
  { rewrite <- (list_fmap_id (contests page)) at 2.
    apply list_fmap_ext. intros i v Hiv.
    assert (Hv : v ∈ contests page) by (apply list_elem_of_lookup; eauto).
    apply Hnone, String.eqb_neq in Hv. by rewrite Hv. }
  rewrite Hsame.
  rewrite find_all_false.
  2:{ intros v Hv. by apply String.eqb_neq, Hnone. }
  simpl. by destruct page.
Qed.

Lemma synced_toggle_unknown_id_removes_witness :
  (toggleBookmark (Some "u1") "lc_x" Samples.page_round Samples.db_bookmarked).2
  = toast_success "Bookmark removed!".
Proof.
  rewrite (synced_toggle_unknown_id_removes (Some "u1") "lc_x"
             Samples.page_round Samples.db_bookmarked); [ reflexivity | ].
  intros v Hv. apply list_elem_of_singleton in Hv as ->. discriminate.
Defined.

End SyncPageFacts.

(** ** The text of the countdown against the status *)

Section CountdownFacts.
Import Classifier.

Ltac peel_label H a :=
  destruct a as [|? a]; simpl in H;
  [ discriminate H
  | first [ discriminate H | injection H as _ H; peel_label H a ] ].

Lemma hours_text_is_no_label a b :
  a +:+ "h " +:+ b <> "Ongoing" /\ a +:+ "h " +:+ b <> "Ended".
Proof. split; intros H; peel_label H a. Qed.

Lemma days_text_is_no_label a b :
  a +:+ "d " +:+ b <> "Ongoing" /\ a +:+ "d " +:+ b <> "Ended".
Proof. split; intros H; peel_label H a. Qed.

(** X10. The text on a card of the syncing Contests page follows the
    status: it reads "Ongoing" exactly when the contest is classified
    current, "Ended" exactly when it is classified past, and so it is a
    countdown exactly when the contest is upcoming. *)
Theorem card_text_follows_status (startTime endTime now : Z) :
  (Synced.getTimeRemaining startTime endTime now = "Ongoing"
   <-> classify startTime endTime now = current) /\
  (Synced.getTimeRemaining startTime endTime now = "Ended"
   <-> classify startTime endTime now = past).
Proof.
  unfold Synced.getTimeRemaining, classify. cbv zeta.
  destruct (startTime >? now).
  - destruct (_ >? 0);
      [ destruct (days_text_is_no_label
                    (pretty ((startTime - now) / (1000 * 60 * 60 * 24)))
                    (pretty (Z.rem (startTime - now) (1000 * 60 * 60 * 24)
                             / (1000 * 60 * 60))
                     +:+ "h "
                     +:+ pretty (Z.rem (startTime - now) (1000 * 60 * 60)
                                 / (1000 * 60)) +:+ "m"))
      | destruct (hours_text_is_no_label
                    (pretty (Z.rem (startTime - now) (1000 * 60 * 60 * 24)
                             / (1000 * 60 * 60)))
                    (pretty (Z.rem (startTime - now) (1000 * 60 * 60)
                             / (1000 * 60)) +:+ "m")) ];
      split; split; (done || discriminate).
  - destruct (endTime >? now); split; split; (done || discriminate).
Qed.

(** X11. The Bookmarks page and the mock Contests page know no running
    contest: from the start instant on, so also while the contest is
    classified current, both show "Ended". *)
Theorem started_contest_reads_ended (startTime endTime now : Z) :
  classify startTime endTime now = current ->
  BookmarksPage.getTimeStatus startTime now = "Ended" /\
  Mock.getTimeRemaining startTime now = "Ended".
Proof.
  unfold classify, BookmarksPage.getTimeStatus, Mock.getTimeRemaining.
  cbv zeta.
  destruct (Z.gtb_spec startTime now); [ done | ]. intros _.
  destruct (Z.gtb_spec (startTime - now) 0); [ lia | ].
  destruct (Z.leb_spec (startTime - now) 0); [ done | lia ].
Qed.

Lemma started_contest_reads_ended_witness :
  BookmarksPage.getTimeStatus 1000 1500 = "Ended" /\
  Mock.getTimeRemaining 1000 1500 = "Ended".
Proof.
  apply (started_contest_reads_ended 1000 2000 1500). reflexivity.
Defined.

End CountdownFacts.

(** ** The tabbed Contests page *)

Section TabbedFacts.
Import Tabbed.
Implicit Types (table : gmap string Bookmark.Row).

Lemma has_bookmark_delete table u c u' c' :
  Store.has_bookmark (Store.delete_bookmark u c table) u' c'
  <-> Store.has_bookmark table u' c' /\ ~ (u' = u /\ c' = c).
Proof.
  unfold Store.has_bookmark, Store.delete_bookmark.
  rewrite !map_Exists_lookup. split.
  - intros (k & r & Hk & Hr). apply map_lookup_filter_Some in Hk as [Hk Hnot].
    simpl in Hnot. split; [ by exists k, r | ].
    intros [-> ->]. by apply Hnot.
  - intros [(k & r & Hk & Hr) Hne]. exists k, r. split; [ | done ].
    apply map_lookup_filter_Some. split; [ done | ]. simpl.
    intros Hr'. apply Hne. destruct Hr as [<- <-], Hr' as [<- <-]. done.
Qed.

Lemma insert_bookmark_Some unique_pair g u c table table' :
  Store.insert_bookmark unique_pair g u c table = Some table' ->
  table !! g = None /\
  table' = <[g := {| Bookmark.id := g; Bookmark.user_id := u;
                     Bookmark.contest_id := c |}]> table.
Proof.
  unfold Store.insert_bookmark. case_bool_decide as Hg; [ done | ].
  destruct (_ && _); [ done | ]. intros [= <-]. split; [ | done ].
  by apply eq_None_not_Some.
Qed.

Lemma insert_bookmark_fresh unique_pair g u c table :
  table !! g = None -> ~ Store.has_bookmark table u c ->
  Store.insert_bookmark unique_pair g u c table
  = Some (<[g := {| Bookmark.id := g; Bookmark.user_id := u;
                    Bookmark.contest_id := c |}]> table).
Proof.
  intros Hg Hno. unfold Store.insert_bookmark.
  rewrite bool_decide_eq_false_2 by (rewrite Hg; by intros [? ?]).
  rewrite (bool_decide_eq_false_2 _ Hno). by rewrite andb_false_r.
Qed.

Lemma has_bookmark_insert g u c table u' c' :
  table !! g = None ->
  Store.has_bookmark
    (<[g := {| Bookmark.id := g; Bookmark.user_id := u;
               Bookmark.contest_id := c |}]> table) u' c'
  <-> Store.has_bookmark table u' c' \/ (u' = u /\ c' = c).
Proof.
  intros Hg. unfold Store.has_bookmark. rewrite map_Exists_insert by done.
  unfold Store.bookmark_of. simpl. intuition congruence.
Qed.

(** X12. [toggleBookmark] of the tabbed page keeps the page in step with
    the store: if the local set of bookmarked ids says what the store says
    for the signed-in user, it still does after the call, whichever branch
    is taken and whether or not the store accepts the insert. *)
Theorem tabbed_toggle_keeps_sync unique_pair generated contestId st db :
  in_sync st db ->
  in_sync (toggleBookmark unique_pair generated contestId st db).1.2
          (toggleBookmark unique_pair generated contestId st db).1.1.
Proof.
  intros Hsync. unfold toggleBookmark.
  destruct (userId st) as [u|] eqn:Hu; [ | done ].
  case_bool_decide as Hin.
  - intros user Huser c. simpl in *. simplify_eq.
    rewrite has_bookmark_delete, elem_of_difference, elem_of_singleton.
    rewrite (Hsync _ Hu c). intuition congruence.
  - destruct (Store.insert_bookmark _ _ _ _ _) as [t'|] eqn:Hins; [ | done ].
    apply insert_bookmark_Some in Hins as [Hfresh ->].
    intros user Huser c. simpl in *. simplify_eq.
    rewrite has_bookmark_insert by done.
    rewrite elem_of_union, elem_of_singleton, (Hsync _ Hu c).
    intuition congruence.
Qed.

Lemma tabbed_toggle_keeps_sync_witness :
  in_sync
    (toggleBookmark true "k1" "cf_1" Samples.tabbed_fresh
       Samples.db_with_link).1.2
    (toggleBookmark true "k1" "cf_1" Samples.tabbed_fresh
       Samples.db_with_link).1.1.
Proof.
  apply (tabbed_toggle_keeps_sync true "k1" "cf_1" Samples.tabbed_fresh
           Samples.db_with_link).
  intros user _ c. unfold Store.has_bookmark. simpl. split.
  - intros Hc. by apply elem_of_empty in Hc.
  - intros Hex. by apply map_Exists_empty in Hex.
Defined.

Lemma tabbed_toggle_remove_eq unique_pair g c st db u :
  userId st = Some u -> c ∈ bookmarkedIds st ->
  toggleBookmark unique_pair g c st db
  = ({| contests_table := contests_table db;
        bookmarks_table := Store.delete_bookmark u c (bookmarks_table db) |},
     {| userId := userId st; bookmarkedIds := bookmarkedIds st ∖ {[c]} |},
     toast_success "Removed from bookmarks").
Proof.
  intros Hu Hin. unfold toggleBookmark.
  by rewrite Hu, (bool_decide_eq_true_2 _ Hin).
Qed.

Lemma tabbed_toggle_add_eq unique_pair g c st db u :
  userId st = Some u -> c ∉ bookmarkedIds st ->
  bookmarks_table db !! g = None ->
  ~ Store.has_bookmark (bookmarks_table db) u c ->
  toggleBookmark unique_pair g c st db
  = ({| contests_table := contests_table db;
        bookmarks_table :=
          <[g := {| Bookmark.id := g; Bookmark.user_id := u;
                    Bookmark.contest_id := c |}]> (bookmarks_table db) |},
     {| userId := Some u; bookmarkedIds := bookmarkedIds st ∪ {[c]} |},
     toast_success "Added to bookmarks").
Proof.
  intros Hu Hout Hg Hno. unfold toggleBookmark.
  rewrite Hu, (bool_decide_eq_false_2 _ Hout).
  by rewrite (insert_bookmark_fresh unique_pair g u c _ Hg Hno).
Qed.

(** X13. From a page in step with the store, and with keys the store has
    not used, [toggleBookmark] is never refused, and calling it twice for
    the same contest brings the local set back to what it was and leaves
    the user with a bookmark for the contest exactly if there was one. *)
Theorem tabbed_toggle_twice_restores unique_pair g1 g2 contestId st db u :
  in_sync st db ->
  userId st = Some u ->
  bookmarks_table db !! g1 = None ->
  bookmarks_table db !! g2 = None ->
  let r1 := toggleBookmark unique_pair g1 contestId st db in
  let r2 := toggleBookmark unique_pair g2 contestId r1.1.2 r1.1.1 in
  (exists m1, r1.2 = toast_success m1) /\
  (exists m2, r2.2 = toast_success m2) /\
  (contestId ∈ bookmarkedIds r1.1.2 <-> contestId ∉ bookmarkedIds st) /\
  bookmarkedIds r2.1.2 = bookmarkedIds st /\
  (Store.has_bookmark (bookmarks_table r2.1.1) u contestId
   <-> Store.has_bookmark (bookmarks_table db) u contestId).
Proof.
  intros Hsync Hu Hg1 Hg2 r1 r2.
  destruct (decide (contestId ∈ bookmarkedIds st)) as [Hin|Hout].
  - assert (Hr1 := tabbed_toggle_remove_eq unique_pair g1 contestId st db u Hu Hin).
    fold r1 in Hr1.
    assert (Hgone : contestId ∉ bookmarkedIds r1.1.2).
    { rewrite Hr1. simpl. rewrite elem_of_difference, elem_of_singleton. tauto. }
    assert (Hno : ~ Store.has_bookmark (bookmarks_table r1.1.1) u contestId).
    { rewrite Hr1. simpl. rewrite has_bookmark_delete. tauto. }
    assert (Hfree : bookmarks_table r1.1.1 !! g2 = None).
    { rewrite Hr1. simpl. unfold Store.delete_bookmark.
      apply map_lookup_filter_None. by left. }
    assert (Hu1 : userId r1.1.2 = Some u) by (by rewrite Hr1).
    assert (Hr2 := tabbed_toggle_add_eq unique_pair g2 contestId r1.1.2 r1.1.1 u
                     Hu1 Hgone Hfree Hno).
    fold r2 in Hr2.
    split; [ rewrite Hr1; by eexists | ].
    split; [ rewrite Hr2; by eexists | ].
    split; [ tauto | ]. rewrite Hr2. simpl. split.
    + rewrite Hr1. simpl. apply set_eq. intros c.
      rewrite elem_of_union, elem_of_difference, elem_of_singleton.
      destruct (decide (c = contestId)) as [->|]; tauto.
    + rewrite has_bookmark_insert by done.
      rewrite <- (Hsync u Hu contestId). tauto.
  - assert (Hno : ~ Store.has_bookmark (bookmarks_table db) u contestId).
    { by rewrite <- (Hsync u Hu contestId). }
    assert (Hr1 := tabbed_toggle_add_eq unique_pair g1 contestId st db u
                     Hu Hout Hg1 Hno).
    fold r1 in Hr1.
    assert (Hthere : contestId ∈ bookmarkedIds r1.1.2).
    { rewrite Hr1. simpl. rewrite elem_of_union, elem_of_singleton. tauto. }
    assert (Hu1 : userId r1.1.2 = Some u) by (by rewrite Hr1).
    assert (Hr2 := tabbed_toggle_remove_eq unique_pair g2 contestId r1.1.2
                     r1.1.1 u Hu1 Hthere).
    fold r2 in Hr2.
    split; [ rewrite Hr1; by eexists | ].
    split; [ rewrite Hr2; by eexists | ].
    split; [ tauto | ]. rewrite Hr2. simpl. split.
    + rewrite Hr1. simpl. apply set_eq. intros c.
      rewrite elem_of_difference, elem_of_union, elem_of_singleton.
      destruct (decide (c = contestId)) as [->|]; tauto.
    + rewrite has_bookmark_delete. tauto.
Qed.

Lemma tabbed_toggle_twice_restores_witness :
  bookmarkedIds
    (toggleBookmark true "k2" "cf_1"
       (toggleBookmark true "k1" "cf_1" Samples.tabbed_fresh
          Samples.db_with_link).1.2
       (toggleBookmark true "k1" "cf_1" Samples.tabbed_fresh
          Samples.db_with_link).1.1).1.2
  = bookmarkedIds Samples.tabbed_fresh.
Proof.
  assert (Hsync : in_sync Samples.tabbed_fresh Samples.db_with_link).
  { intros user _ c. unfold Store.has_bookmark. simpl. split.
    - intros Hc. by apply elem_of_empty in Hc.
    - intros Hex. by apply map_Exists_empty in Hex. }
  destruct (tabbed_toggle_twice_restores true "k1" "k2" "cf_1"
              Samples.tabbed_fresh Samples.db_with_link "u1"
              Hsync eq_refl eq_refl eq_refl) as (_ & _ & _ & Hset & _).
  exact Hset.
Defined.

#[local] Instance by_start_time_total : Total by_start_time.
Proof. intros a b. unfold by_start_time. lia. Qed.

(** X14. What the tabbed page loads when it mounts: the local set of
    bookmarked ids says exactly what the store says for the user of the
    session (and is empty when nobody is signed in), and the contests are
    all the persisted contests, each once, in ascending order of start
    time. *)
Theorem fetchData_loads_store user db :
  userId (fetchData user db).1 = user /\
  in_sync (fetchData user db).1 db /\
  (user = None -> bookmarkedIds (fetchData user db).1 = ∅) /\
  Sorted by_start_time (fetchData user db).2 /\
  (fetchData user db).2 ≡ₚ Store.select_contests (contests_table db).
Proof.
  unfold fetchData. simpl. split; [ done | ]. split.
  - intros u Hu c. simpl in *. subst user.
    rewrite elem_of_list_to_set, list_elem_of_fmap.
    unfold Store.has_bookmark. rewrite map_Exists_lookup. split.
    + intros (b & -> & Hb). apply list_elem_of_filter in Hb as [Hbu Hb].
      apply list_elem_of_fmap in Hb as ([k b'] & -> & Hkb).
      apply elem_of_map_to_list in Hkb. by exists k, b'.
    + intros (k & b & Hkb & Hbu & Hbc). exists b. split; [ done | ].
      apply list_elem_of_filter. split; [ done | ].
      apply list_elem_of_fmap. exists (k, b).
      split; [ done | by apply elem_of_map_to_list ].
  - split; [ by intros -> | ].
    split; [ apply Sorted_merge_sort, _ | apply merge_sort_Permutation ].
Qed.

Lemma fetchData_loads_store_witness :
  bookmarkedIds (fetchData None Samples.db_bookmarked).1 = ∅.
Proof.
  destruct (fetchData_loads_store None Samples.db_bookmarked)
    as (_ & _ & Hnone & _).
  by apply Hnone.
Defined.

Lemma filter_all_pass {A} (P : A -> Prop) `{!forall x, Decision (P x)}
    (l : list A) :
  (forall x, x ∈ l -> P x) -> filter P l = l.
Proof.
  induction l as [|x l IH]; intros Hall; [ done | ].
  rewrite filter_cons_True by apply Hall, list_elem_of_here.
  f_equal. apply IH. intros y Hy. by apply Hall, list_elem_of_further.
Qed.

(** X15. [togglePlatform] of the tabbed page, on the array of selected
    platforms: it flips the selection of the one platform and of no other
    and never creates a repetition; toggling a platform that was not
    selected twice gives the array back, and toggling a selected one twice
    moves it to the end. *)
Theorem tabbed_togglePlatform_flips_one platform (prev : list string) :
  (platform ∈ togglePlatform platform prev <-> platform ∉ prev) /\
  (forall p, p <> platform ->
     (p ∈ togglePlatform platform prev <-> p ∈ prev)) /\
  (NoDup prev -> NoDup (togglePlatform platform prev)) /\
  (platform ∉ prev ->
   togglePlatform platform (togglePlatform platform prev) = prev) /\
  (platform ∈ prev ->
   togglePlatform platform (togglePlatform platform prev)
   = (filter (fun p => p <> platform) prev ++ [platform])%list).
Proof.
  unfold togglePlatform.
  destruct (decide (platform ∈ prev)) as [Hin|Hout].
  - rewrite (bool_decide_eq_true_2 _ Hin).
    assert (Hgone : platform ∉ filter (fun p => p <> platform) prev).
    { rewrite list_elem_of_filter. tauto. }
    split; [ tauto | ]. split.
    { intros p Hp. rewrite list_elem_of_filter. tauto. }
    split; [ apply NoDup_filter | ]. split; [ done | ].
    intros _. by rewrite (bool_decide_eq_false_2 _ Hgone).
  - rewrite (bool_decide_eq_false_2 _ Hout).
    assert (Hthere : platform ∈ (prev ++ [platform])%list).
    { apply elem_of_app. right. by apply list_elem_of_singleton. }
    split; [ tauto | ]. split.
    { intros p Hp. rewrite elem_of_app, list_elem_of_singleton. tauto. }
    split.
    { intros Hnd. apply NoDup_app. split; [ done | ]. split.
      - intros x Hx Hx'. apply list_elem_of_singleton in Hx'. by subst.
      - apply NoDup_singleton. }
    split; [ | done ].
    intros _. rewrite (bool_decide_eq_true_2 _ Hthere).
    rewrite filter_app, filter_cons_False, filter_nil by tauto.
    rewrite app_nil_r. apply filter_all_pass.
    intros x Hx ->. done.
Qed.

Lemma tabbed_togglePlatform_flips_one_witness :
  NoDup (togglePlatform "LeetCode" ["Codeforces"]).
Proof.
  destruct (tabbed_togglePlatform_flips_one "LeetCode" ["Codeforces"])
    as (_ & _ & Hnd & _).
  apply Hnd, NoDup_singleton.
Defined.

(** X16. The tabs of the tabbed page, for a contest that does not end
    before it starts: the Upcoming tab lists it exactly when it is
    classified upcoming; the Past tab lists it when it is classified past,
    except at the very instant it ends; a contest classified current is
    on neither of the two; and My Contests lists exactly the contests of
    the local bookmark set. All tabs list only selected platforms. *)
Theorem tabbed_tabs_against_status now selected st contests c :
  Contest.start_time c <= Contest.end_time c ->
  let status :=
    Classifier.classify (Contest.start_time c) (Contest.end_time c) now in
  let listed :=
    c ∈ contests /\ platform_label (Contest.platform c) ∈ selected in
  (c ∈ filteredContests now selected tab_upcoming st contests
   <-> listed /\ status = Classifier.upcoming) /\
  (c ∈ filteredContests now selected tab_past st contests
   <-> listed /\ status = Classifier.past /\ Contest.end_time c <> now) /\
  (status = Classifier.current ->
   (c ∉ filteredContests now selected tab_upcoming st contests) /\
   (c ∉ filteredContests now selected tab_past st contests)) /\
  (c ∈ filteredContests now selected tab_my st contests
   <-> listed /\ Contest.id c ∈ bookmarkedIds st).
Proof.
  intros Hord status listed. unfold filteredContests, status, listed.
  rewrite !list_elem_of_filter. unfold in_tab.
  rewrite classify_upcoming_iff, classify_past_iff, classify_current_iff.
  repeat split; try tauto; try lia; intuition lia.
Qed.

Lemma tabbed_tabs_against_status_witness :
  (Samples.persisted_round
   ∉ filteredContests 1742480000000 ["Codeforces"] tab_upcoming
       Samples.tabbed_fresh [Samples.persisted_round]) /\
  (Samples.persisted_round
   ∉ filteredContests 1742480000000 ["Codeforces"] tab_past
       Samples.tabbed_fresh [Samples.persisted_round]).
Proof.
  assert (Hord : Contest.start_time Samples.persisted_round
                 <= Contest.end_time Samples.persisted_round)
    by (simpl; lia).
  destruct (tabbed_tabs_against_status 1742480000000 ["Codeforces"]
              Samples.tabbed_fresh [Samples.persisted_round]
              Samples.persisted_round Hord) as (_ & _ & Hcur & _).
  apply Hcur. reflexivity.
Defined.

End TabbedFacts.

(** ** The Contests page over mock data *)

Section MockFacts.
Import Mock.

Lemma upsert_saved_snoc rows r table :
  upsert_saved (rows ++ [r])%list table
  = <[Saved.contest_id r := r]> (upsert_saved rows table).
Proof. unfold upsert_saved. by rewrite foldl_app. Qed.

Lemma upsert_saved_lookup_other rows table k :
  (forall r, r ∈ rows -> Saved.contest_id r <> k) ->
  upsert_saved rows table !! k = table !! k.
Proof.
  induction rows as [|x rows IH] using rev_ind; intros Hk; [ done | ].
  rewrite upsert_saved_snoc, lookup_insert_ne
    by (apply Hk, elem_of_app; right; by apply list_elem_of_singleton).
  apply IH. intros r Hr. apply Hk, elem_of_app. by left.
Qed.

Lemma find_some_of_elem {A} (p : A -> bool) (l : list A) x :
  x ∈ l -> p x = true -> is_Some (find p l).
Proof.
  intros Hx Hp. destruct (find p l) eqn:Hfind; [ by eexists | ].
  apply list_elem_of_In in Hx.
  rewrite (find_none _ _ Hfind x Hx) in Hp. discriminate.
Qed.

(** X17. On the mock Contests page [toggleBookmark] leaves the store
    opposite to the page. Bookmarking a contest that the page holds
    unflagged ends with no [bookmarks] row for it, although the page now
    flags it: the row just upserted is deleted again, because the check
    for the removal looks at the state before the flip. Un-bookmarking a
    contest whose entries are all flagged deletes nothing: what the store
    holds under that contest id stays, although the page no longer flags
    it. *)
Theorem mock_toggle_store_opposes_page contestId contests db :
  ((exists c, c ∈ contests /\ id c = contestId /\ isBookmarked c = false) ->
     (forall k row, bookmarks (toggleBookmark contestId contests db).1 !! k
                    = Some row -> Saved.contest_id row <> contestId) /\
     (exists c', c' ∈ (toggleBookmark contestId contests db).2 /\
                 id c' = contestId /\ isBookmarked c' = true)) /\
  ((forall c, c ∈ contests -> id c = contestId -> isBookmarked c = true) ->
     bookmarks (toggleBookmark contestId contests db).1 !! contestId
     = bookmarks db !! contestId /\
     (forall c', c' ∈ (toggleBookmark contestId contests db).2 ->
                 id c' = contestId -> isBookmarked c' = false)).
Proof.
  unfold toggleBookmark. cbv zeta. split.
  - intros (c & Hc & Hid & Hflag).
    destruct (find_some_of_elem
                (fun c => (id c =? contestId) && negb (isBookmarked c))
                contests c Hc) as [v ->].
    { apply String.eqb_eq in Hid. by rewrite Hid, Hflag. }
    simpl. split.
    + intros k row Hk. unfold delete_saved in Hk.
      by apply map_lookup_filter_Some in Hk as [_ Hk].
    + exists (with_isBookmarked (negb (isBookmarked c)) c).
      split; [ | by rewrite Hflag ].
      apply list_elem_of_fmap. exists c. split; [ | done ].
      apply String.eqb_eq in Hid. by rewrite Hid.
  - intros Hall.
    rewrite find_all_false.
    2:{ intros c Hc. destruct (String.eqb_spec (id c) contestId) as [Hid|];
          [ | done ].
        by rewrite (Hall c Hc Hid). }
    simpl. split.
    + apply upsert_saved_lookup_other. intros r Hr.
      apply list_elem_of_fmap in Hr as (c' & -> & Hc').
      apply list_elem_of_filter in Hc' as [Hflag Hc'].
      apply list_elem_of_fmap in Hc' as (c & -> & Hc). simpl.
      destruct (String.eqb_spec (id c) contestId) as [Hid|Hne]; [ | done ].
      simpl in Hflag. rewrite (Hall c Hc Hid) in Hflag. discriminate.
    + intros c' Hc' Hid'. apply list_elem_of_fmap in Hc' as (c & -> & Hc).
      destruct (String.eqb_spec (id c) contestId) as [Hid|Hne].
      * simpl. by rewrite (Hall c Hc Hid).
      * by destruct Hne.
Qed.

Lemma mock_toggle_store_opposes_page_witness :
  exists c',
    c' ∈ (toggleBookmark "cf1" mockContests
            {| bookmarks := ∅; contest_solutions := ∅ |}).2 /\
    id c' = "cf1" /\ isBookmarked c' = true.
Proof.
  destruct (mock_toggle_store_opposes_page "cf1" mockContests
              {| bookmarks := ∅; contest_solutions := ∅ |}) as [Hadd _].
  apply Hadd. eexists. split; [ apply list_elem_of_here | done ].
Defined.

(** X18. [handleSolutionSubmit] does nothing when the contest id or the
    link is empty. Otherwise the link is stored and comes back: after
    [fetchContests] every contest with that id carries the link, the page
    itself shows it at once, and what [fetchContests] gives for the other
    contests is what it gave before. Bookmarks are not touched. *)
Theorem solution_submit_round_trip sel link contests db :
  (sel = "" \/ link = "" ->
     handleSolutionSubmit sel link contests db = (db, contests, None)) /\
  (sel <> "" -> link <> "" ->
     (handleSolutionSubmit sel link contests db).2
     = Some "Solution link added successfully!" /\
     bookmarks (handleSolutionSubmit sel link contests db).1.1 = bookmarks db /\
     (forall c, c ∈ fetchContests (handleSolutionSubmit sel link contests db).1.1 ->
                id c = sel -> solutionLink c = Some link) /\
     (forall c, c ∈ (handleSolutionSubmit sel link contests db).1.2 ->
                id c = sel -> solutionLink c = Some link) /\
     (forall i c, fetchContests db !! i = Some c -> id c <> sel ->
                  fetchContests (handleSolutionSubmit sel link contests db).1.1
                    !! i = Some c)).
Proof.
  unfold handleSolutionSubmit. split.
  - intros [-> | ->]; [ done | ]. by rewrite orb_true_r.
  - intros Hsel Hlink.
    apply String.eqb_neq in Hsel as Hsel', Hlink as Hlink'.
    rewrite Hsel', Hlink'. simpl.
    split; [ done | ]. split; [ done | ].
    unfold fetchContests, contestsWithSolutions.
    generalize mockContests. intros l. simpl. split; [ | split ].
    + intros c Hc Hid. apply list_elem_of_fmap in Hc as (c0 & -> & _).
      simpl in *. subst sel. by rewrite lookup_insert_eq, Hlink'.
    + intros c Hc Hid. apply list_elem_of_fmap in Hc as (c0 & -> & _).
      destruct (String.eqb_spec (id c0) sel) as [_|Hne]; [ done | ].
      by destruct Hne.
    + intros i c Hi Hne. rewrite list_lookup_fmap in Hi |- *.
      destruct (l !! i) as [c0|]; [ | done ].
      simpl in *. injection Hi as <-. simpl in Hne.
      by rewrite lookup_insert_ne.
Qed.

Lemma solution_submit_round_trip_witness :
  (handleSolutionSubmit "cf2" "https://www.youtube.com/watch?v=x" []
     {| bookmarks := ∅; contest_solutions := ∅ |}).2
  = Some "Solution link added successfully!".
Proof.
  destruct (solution_submit_round_trip "cf2" "https://www.youtube.com/watch?v=x"
              [] {| bookmarks := ∅; contest_solutions := ∅ |}) as [_ Hset].
  assert (H1 : "cf2" <> "") by discriminate.
  assert (H2 : "https://www.youtube.com/watch?v=x" <> "") by discriminate.
  destruct (Hset H1 H2) as (Halert & _).
  exact Halert.
Defined.

(** X19. The two views of the mock Contests page split the contests of the
    selected platforms: each of them is listed under "past" or under
    "upcoming" and never under both. What decides is the start alone: a
    contest that has started is "past" even while it runs, and one that
    starts at this very instant is still "upcoming". *)
Theorem mock_views_split now selected contests :
  (filteredContests now selected true contests
   ++ filteredContests now selected false contests)%list
  ≡ₚ filter (fun c => platform_label (platform c) ∈ selected) contests /\
  (forall c, c ∈ filteredContests now selected true contests ->
             c ∉ filteredContests now selected false contests) /\
  (forall c, c ∈ contests -> platform_label (platform c) ∈ selected ->
     (startTime c < now -> c ∈ filteredContests now selected true contests) /\
     (startTime c = now -> c ∈ filteredContests now selected false contests)).
Proof.
  unfold filteredContests. split; [ | split ].
  - rewrite <- (filter_app_complement (fun c => startTime c < now)
                  (filter (fun c => platform_label (platform c) ∈ selected)
                     contests)).
    rewrite !list_filter_filter.
    rewrite (list_filter_iff (passes_filter now selected true)
               (fun c => startTime c < now
                         /\ platform_label (platform c) ∈ selected))
      by (intros c; unfold passes_filter; tauto).
    rewrite (list_filter_iff (passes_filter now selected false)
               (fun c => ~ startTime c < now
                         /\ platform_label (platform c) ∈ selected))
      by (intros c; unfold passes_filter; tauto).
    done.
  - intros c. rewrite !list_elem_of_filter. unfold passes_filter. tauto.
  - intros c Hc Hsel. rewrite !list_elem_of_filter. unfold passes_filter.
    split; intros; (split; [ split; [ done | lia ] | done ]).
Qed.

Lemma mock_views_split_witness :
  {| id := "cf1"; title := "Codeforces Round 930"; platform := Codeforces;
     startTime := 1742479200000; duration := 120;
     isBookmarked := false; solutionLink := None |}
  ∈ filteredContests Samples.later {["Codeforces"]} true mockContests.
Proof.
  destruct (mock_views_split Samples.later {["Codeforces"]} mockContests)
    as (_ & _ & Hwhere).
  apply Hwhere.
  - apply list_elem_of_here.
  - simpl. by apply elem_of_singleton.
  - simpl. unfold Samples.later. lia.
Defined.

End MockFacts.

(** ** The Bookmarks page *)

Section BookmarksPageFacts.
Import BookmarksPage.

(** X20. [removeBookmark] of the Bookmarks page does nothing, and says
    nothing, when nobody is signed in. For a signed-in user it takes the
    contest off the list and leaves the other contests in their order,
    deletes that user's bookmark for that contest from the store, and
    leaves every other bookmark, of this user and of others, and the
    contests table as they were. *)
Theorem removeBookmark_removes_one userId contestId shown db :
  (userId = None ->
     removeBookmarkShown userId contestId shown db = (db, shown, None)) /\
  (forall u, userId = Some u ->
     (removeBookmarkShown userId contestId shown db).2
     = Some (toast_success "Bookmark removed") /\
     (forall c, c ∈ (removeBookmarkShown userId contestId shown db).1.2
                <-> c ∈ shown /\ Contest.id c <> contestId) /\
     (removeBookmarkShown userId contestId shown db).1.2 `sublist_of` shown /\
     ~ Store.has_bookmark
         (bookmarks_table (removeBookmarkShown userId contestId shown db).1.1)
         u contestId /\
     (forall u' c', ~ (u' = u /\ c' = contestId) ->
        (Store.has_bookmark
           (bookmarks_table (removeBookmarkShown userId contestId shown db).1.1)
           u' c'
         <-> Store.has_bookmark (bookmarks_table db) u' c')) /\
     contests_table (removeBookmarkShown userId contestId shown db).1.1
     = contests_table db).
Proof.
  unfold removeBookmarkShown. split; [ by intros -> | ].
  intros u ->. simpl. split; [ done | ]. split.
  { intros c. rewrite list_elem_of_filter. tauto. }
  split; [ apply sublist_filter | ]. split.
  { rewrite has_bookmark_delete. tauto. }
  split; [ | done ].
  intros u' c' Hne. rewrite has_bookmark_delete. tauto.
Qed.

Lemma removeBookmark_removes_one_witness :
  ~ Store.has_bookmark
      (bookmarks_table
         (removeBookmarkShown (Some "u1") "cf_1" [Samples.persisted_round]
            Samples.db_bookmarked).1.1)
      "u1" "cf_1".
Proof.
  destruct (removeBookmark_removes_one (Some "u1") "cf_1"
              [Samples.persisted_round] Samples.db_bookmarked) as [_ Hrm].
  destruct (Hrm "u1" eq_refl) as (_ & _ & _ & Hgone & _).
  exact Hgone.
Defined.

End BookmarksPageFacts.

(** ** The effect of the theme hook *)

Section ThemeEffectFacts.
Import Theme.

Lemma classList_remove_elem tokens classes c :
  c ∈ classList_remove tokens classes <-> (c ∉ tokens) /\ c ∈ classes.
Proof.
  unfold classList_remove.
  exact (list_elem_of_filter (fun c => c ∉ tokens) classes c).
Qed.

Lemma is_theme_tokens c : c ∈ ["light"; "dark"] <-> is_theme c.
Proof.
  unfold is_theme.
  rewrite !elem_of_cons, elem_of_nil. tauto.
Qed.

Lemma applyTheme_classList t b :
  is_theme t ->
  classList (applyTheme t b)
  = (classList_remove ["light"; "dark"] (classList b) ++ [t])%list.
Proof.
  intros Hth. unfold applyTheme, classList_add. simpl.
  rewrite bool_decide_eq_false_2; [ done | ].
  rewrite classList_remove_elem, is_theme_tokens. tauto.
Qed.

Lemma classList_remove_snoc_theme t classes :
  is_theme t ->
  classList_remove ["light"; "dark"]
    (classList_remove ["light"; "dark"] classes ++ [t])%list
  = classList_remove ["light"; "dark"] classes.
Proof.
  intros Hth. unfold classList_remove at 1.
  rewrite filter_app, filter_cons_False, filter_nil, app_nil_r
    by (intros Hn; apply Hn, is_theme_tokens, Hth).
  apply filter_all_pass. intros c Hc.
  apply classList_remove_elem in Hc. tauto.
Qed.

Lemma Browser_eq (a b : Browser) :
  classList a = classList b -> storedTheme a = storedTheme b -> a = b.
Proof. destruct a, b. simpl. by intros -> ->. Qed.

(** X21. The effect of [useTheme], for a theme the hook can hold and a
    class list without repetitions: afterwards the root carries the class
    of the current theme and not that of the other theme, every other
    class is kept, the list still has no repetition, running the effect
    again changes nothing, and the stored value initialises the hook to
    the same theme on the next load. *)
Theorem applyTheme_sets_the_theme t b :
  theme_state t ->
  NoDup (classList b) ->
  t ∈ classList (applyTheme t b) /\
  (forall other, is_theme other -> other <> t ->
                 other ∉ classList (applyTheme t b)) /\
  (forall c, ~ is_theme c ->
             (c ∈ classList (applyTheme t b) <-> c ∈ classList b)) /\
  NoDup (classList (applyTheme t b)) /\
  applyTheme t (applyTheme t b) = applyTheme t b /\
  initTheme (storedTheme (applyTheme t b)) = t.
Proof.
  intros Ht Hnd. apply theme_state_is_theme in Ht as Hth.
  assert (Hidem : applyTheme t (applyTheme t b) = applyTheme t b).
  { apply Browser_eq; [ | done ].
    rewrite !applyTheme_classList by done.
    by rewrite classList_remove_snoc_theme. }
  rewrite (applyTheme_classList t b Hth).
  assert (Hrest : forall c,
            c ∈ classList_remove ["light"; "dark"] (classList b)
            <-> ~ is_theme c /\ c ∈ classList b).
  { intros c. rewrite classList_remove_elem, is_theme_tokens. tauto. }
  split; [ apply elem_of_app; right; by apply list_elem_of_singleton | ].
  split.
  { intros other Hother Hne. rewrite elem_of_app, list_elem_of_singleton, Hrest.
    tauto. }
  split.
  { intros c Hc. rewrite elem_of_app, list_elem_of_singleton, Hrest.
    split; [ intros [[_ ?]| ->]; tauto | tauto ]. }
  split.
  { apply NoDup_app. split; [ by apply NoDup_filter | ]. split.
    - intros x Hx Hx'. apply list_elem_of_singleton in Hx'. subst.
      apply Hrest in Hx. tauto.
    - apply NoDup_singleton. }
  split; [ done | ].
  destruct Hth as [-> | ->]; reflexivity.
Qed.

Lemma applyTheme_sets_the_theme_witness :
  "dark" ∈ classList
             (applyTheme "dark"
                {| classList := ["app"; "light"]; storedTheme := Some "light" |}).
Proof.
  assert (Hnd : NoDup ["app"; "light"]).
  { apply NoDup_cons_2; [ | apply NoDup_singleton ].
    intros H. apply list_elem_of_singleton in H. discriminate. }
  destruct (applyTheme_sets_the_theme "dark"
              {| classList := ["app"; "light"]; storedTheme := Some "light" |}
              (theme_toggled _ (theme_initial (Some "light"))) Hnd)
    as [Hin _].
  exact Hin.
Defined.

End ThemeEffectFacts.

(** ** What the three adapters agree on *)

Section AdapterFacts.
Import Synced.

Lemma cfContest_well_formed now c : consistent_row now (cfContest now c).
Proof.
  unfold consistent_row. simpl. split; [ | split; [ done | by eexists ] ].
  replace ((Cf.startTimeSeconds c + Cf.durationSeconds c) * 1000
           - Cf.startTimeSeconds c * 1000)
    with (Cf.durationSeconds c * 1000) by lia.
  change 60000 with (60 * 1000). by rewrite Z.div_mul_cancel_r.
Qed.

Lemma ccContest_well_formed now c r :
  ccContest now c = Some r -> consistent_row now r.
Proof.
  unfold ccContest. intros H.
  destruct (Cc.contest_start_date c), (Cc.contest_end_date c);
    simpl in H; simplify_eq.
  unfold consistent_row. simpl. split; [ done | split; [ done | by eexists ] ].
Qed.

Lemma lcContest_well_formed now c : consistent_row now (lcContest now c).
Proof.
  unfold consistent_row, lcContest, lcDurationSeconds. simpl.
  split; [ | split; [ done | by eexists ] ].
  destruct (Lc.duration c) as [d|]; [ destruct (Z.eqb_spec d 0) | ].
  - replace ((Lc.startTime c + 5400) * 1000 - Lc.startTime c * 1000)
      with 5400000 by lia. done.
  - replace ((Lc.startTime c + d) * 1000 - Lc.startTime c * 1000)
      with (d * 1000) by lia.
    change 60000 with (60 * 1000). by rewrite Z.div_mul_cancel_r.
  - replace ((Lc.startTime c + 5400) * 1000 - Lc.startTime c * 1000)
      with 5400000 by lia. done.
Qed.

(** X22. Every row a run sends to the store is consistent in itself,
    whichever adapter built it: its [duration] is the whole number of
    minutes between its [start_time] and its [end_time], its [status] is
    the classification of these two instants at the clock reading of the
    run, and its [id] and its [url] are the prefix and the address of its
    platform followed by one and the same native identifier. *)
Theorem batch_rows_are_consistent now cfData ccData lcData batch r :
  syncBatch now cfData ccData lcData = Some batch ->
  r ∈ batch ->
  Contest.duration r = (Contest.end_time r - Contest.start_time r) / 60000 /\
  Contest.status r
  = Classifier.classify (Contest.start_time r) (Contest.end_time r) now /\
  exists native,
    Contest.id r = id_prefix (Contest.platform r) +:+ native /\
    Contest.url r = url_base (Contest.platform r) +:+ native.
Proof.
  unfold syncBatch. destruct (cfContests now cfData) as [cf|] eqn:Hcf;
    simpl; [ | done ].
  intros [= <-] Hin. rewrite !elem_of_app in Hin.
  destruct Hin as [Hin | [Hin | Hin]].
  - destruct (cfContests_elem _ _ _ _ Hcf Hin) as [c ->].
    apply cfContest_well_formed.
  - apply ccContests_elem in Hin as [c Hc]. by eapply ccContest_well_formed.
  - apply lcContests_elem in Hin as [c ->].
    apply lcContest_well_formed.
Qed.

Lemma batch_rows_are_consistent_witness :
  Contest.duration (cfContest Samples.later Samples.round_entry)
  = (Contest.end_time (cfContest Samples.later Samples.round_entry)
     - Contest.start_time (cfContest Samples.later Samples.round_entry))
    / 60000.
Proof.
  destruct (batch_rows_are_consistent Samples.later Samples.cf_ok Rejected
              Rejected [cfContest Samples.later Samples.round_entry]
              (cfContest Samples.later Samples.round_entry) eq_refl)
    as [Hd _]; [ apply list_elem_of_here | exact Hd ].
Defined.



End AdapterFacts.
